(** * conv.py: wrappers around mplayer, mencoder, ffmpeg and yamdi

    A shallow embedding of the module [conv.py] (Python 2).  Python byte
    strings are [string] (lists of 8-bit [ascii]), Python integers are [Z],
    dictionaries are [gmap], and the functions that start subprocesses or
    touch the file system run in a state-and-exception monad over an
    explicit [World]. *)

From Stdlib Require Import ZArith Ascii String List Lia Bool.
From Stdlib Require Import DecimalString DecimalPos.
From stdpp Require Import base gmap strings list.

Local Open Scope Z_scope.

(* stdpp blocks [simpl] on string concatenation; the proofs below compute
   with it. *)
#[local] Arguments String.append !s1 s2 : simpl nomatch.

(** ** Python strings *)

Module Py.

(** [a + b] on [str]. *)
Notation "a +++ b" := (String.append a b)
  (at level 60, right associativity).

(** [sep.join(parts)]. *)
Fixpoint join (sep : string) (parts : list string) : string :=
  match parts with
  | [] => ""
  | [p] => p
  | p :: ps => p +++ sep +++ join sep ps
  end.

(** [s.replace(c, new)] for a one-character pattern [c]: every occurrence
    of [c], left to right, becomes [new]. *)
Fixpoint replace_char (c : ascii) (new : string) (s : string) : string :=
  match s with
  | EmptyString => EmptyString
  | String a s' =>
      if Ascii.eqb a c then new +++ replace_char c new s'
      else String a (replace_char c new s')
  end.

(** [s.startswith(p)]. *)
Definition startswith (p s : string) : bool := String.prefix p s.

(** [needle in s]: substring test. *)
Fixpoint contains (needle s : string) : bool :=
  if String.prefix needle s then true
  else match s with
       | EmptyString => false
       | String _ s' => contains needle s'
       end.

(** [str(n)] and ['{x}'.format(x=n)] for an integer [n]: decimal digits,
    with a leading minus sign for a negative number. *)
Definition str_of_int (n : Z) : string :=
  NilEmpty.string_of_int (Z.to_int n).

(** [len(s)]. *)
Definition len (s : string) : Z := Z.of_nat (String.length s).

End Py.

Import Py.

(** ** Characters used by the module *)

Definition quote : ascii := "'"%char.
Definition dquote : ascii := "034"%char.
Definition backslash : ascii := "\"%char.
Definition space : ascii := " "%char.
Definition newline : ascii := "010"%char.
Definition tab : ascii := "009"%char.
Definition cr : ascii := "013"%char.

(** ** escape_shell_arg (conv.py, line 19) *)

(** The replacement text ['\'' + '\\' + '\'' + '\''], that is the four
    characters quote, backslash, quote, quote. *)
Definition quote_replacement : string :=
  String quote (String backslash (String quote (String quote ""))).

Definition escape_shell_arg (arg : string) : string :=
  String quote "" +++ replace_char quote quote_replacement arg +++ String quote "".

(** ** The shell's word splitting

    The commands built by the module are run with [shell = True].  The
    model of the receiving side is the POSIX quoting rules as Python's
    [shlex.split] implements them: blanks separate words, a single-quoted
    stretch is literal up to the next single quote, a backslash outside
    quotes makes the next character literal, and inside double quotes a
    backslash escapes only a double quote or a backslash.  An unclosed
    quote or a trailing backslash is an error ([None]). *)

Inductive lex_state :=
  | Between      (* between words *)
  | InWord       (* inside a word, outside quotes *)
  | InSingle     (* inside '...' *)
  | InDouble     (* inside "..." *)
  | EscWord      (* after a backslash outside quotes *)
  | EscDouble.   (* after a backslash inside "..." *)

Definition is_blank (c : ascii) : bool :=
  Ascii.eqb c space || Ascii.eqb c tab || Ascii.eqb c cr || Ascii.eqb c newline.

Definition snoc (s : string) (c : ascii) : string := s +++ String c "".

Fixpoint shell_split_from (st : lex_state) (cur : string) (s : string)
  : option (list string) :=
  match s with
  | EmptyString =>
      match st with
      | Between => Some []
      | InWord => Some [cur]
      | InSingle | InDouble | EscWord | EscDouble => None
      end
  | String c s' =>
      match st with
      | Between =>
          if is_blank c then shell_split_from Between "" s'
          else if Ascii.eqb c quote then shell_split_from InSingle "" s'
          else if Ascii.eqb c dquote then shell_split_from InDouble "" s'
          else if Ascii.eqb c backslash then shell_split_from EscWord "" s'
          else shell_split_from InWord (String c "") s'
      | InWord =>
          if is_blank c then
            option_map (cons cur) (shell_split_from Between "" s')
          else if Ascii.eqb c quote then shell_split_from InSingle cur s'
          else if Ascii.eqb c dquote then shell_split_from InDouble cur s'
          else if Ascii.eqb c backslash then shell_split_from EscWord cur s'
          else shell_split_from InWord (snoc cur c) s'
      | InSingle =>
          if Ascii.eqb c quote then shell_split_from InWord cur s'
          else shell_split_from InSingle (snoc cur c) s'
      | InDouble =>
          if Ascii.eqb c dquote then shell_split_from InWord cur s'
          else if Ascii.eqb c backslash then shell_split_from EscDouble cur s'
          else shell_split_from InDouble (snoc cur c) s'
      | EscWord => shell_split_from InWord (snoc cur c) s'
      | EscDouble =>
          if Ascii.eqb c dquote || Ascii.eqb c backslash
          then shell_split_from InDouble (snoc cur c) s'
          else shell_split_from InDouble (snoc (snoc cur backslash) c) s'
      end
  end.

Definition shell_split (s : string) : option (list string) :=
  shell_split_from Between "" s.

(** ** Exceptions and outcomes *)

Inductive exn :=
  | UtilityNotFound (msg : string)
  | CodecNotFound
  | WrongCommandLine (msg : string)
  | WrongVideoFormat (msg : string)
  | OSError
  | ValueError
  | TypeError
  | KeyError
  | IndexError
  | AttributeError
  | UnboundLocalError
  | ZeroDivisionError
  | OverflowError
  | UnicodeDecodeError.

Inductive outcome (A : Type) :=
  | Return (a : A)
  | Raise (e : exn).
Arguments Return {A} a.
Arguments Raise {A} e.

(** ** More of Python's string and integer built-ins *)

Module PyStr.

Definition is_digit (c : ascii) : bool :=
  (48 <=? Z.of_N (N_of_ascii c)) && (Z.of_N (N_of_ascii c) <=? 57).

(** The characters [str.strip()] removes: blank, tab, newline, carriage
    return, vertical tab, form feed. *)
Definition is_whitespace (c : ascii) : bool :=
  let n := Z.of_N (N_of_ascii c) in
  (n =? 32) || ((9 <=? n) && (n <=? 13)).

Fixpoint lstrip (s : string) : string :=
  match s with
  | EmptyString => EmptyString
  | String c s' => if is_whitespace c then lstrip s' else s
  end.

Fixpoint rstrip (s : string) : string :=
  match s with
  | EmptyString => EmptyString
  | String c s' =>
      match rstrip s' with
      | EmptyString => if is_whitespace c then EmptyString else String c ""
      | r => String c r
      end
  end.

Definition strip (s : string) : string := rstrip (lstrip s).

(** [s.split(sep, maxsplit)] for a one-character separator. *)
Fixpoint split (sep : ascii) (maxsplit : nat) (s : string) : list string :=
  match s with
  | EmptyString => [EmptyString]
  | String c s' =>
      match maxsplit with
      | S m =>
          if Ascii.eqb c sep then EmptyString :: split sep m s'
          else match split sep maxsplit s' with
               | p :: ps => String c p :: ps
               | [] => [String c ""]
               end
      | O => [s]
      end
  end.

Fixpoint digits_value (acc : Z) (s : string) : option Z :=
  match s with
  | EmptyString => Some acc
  | String c s' =>
      if is_digit c
      then digits_value (10 * acc + (Z.of_N (N_of_ascii c) - 48)) s'
      else None
  end.

Definition unsigned_value (s : string) : option Z :=
  match s with
  | EmptyString => None
  | _ => digits_value 0 s
  end.

(** [int(s)] for a string: surrounding whitespace is dropped, then an
    optional sign and at least one decimal digit; anything else is a
    [ValueError]. *)
Definition int_of_str (s : string) : outcome Z :=
  let body :=
    match strip s with
    | String "-" t => option_map Z.opp (unsigned_value t)
    | String "+" t => unsigned_value t
    | t => unsigned_value t
    end in
  match body with
  | Some n => Return n
  | None => Raise ValueError
  end.

(** [unicode(s)] decodes with the ASCII codec: a byte above 127 is an
    error; the text is otherwise unchanged. *)
Definition is_ascii (s : string) : bool :=
  forallb (fun c => Z.of_N (N_of_ascii c) <? 128) (list_ascii_of_string s).

End PyStr.

(** ** Regular expressions

    The part of Python's [re] the module uses, as a backtracking matcher:
    alternatives are tried in the order [re] tries them (a lazy star
    first tries to stop, a greedy plus first tries to go on), and the first
    success is the match.  The patterns are compiled with [re.U]. *)

Module Re.

Inductive charset :=
  | Lit (c : ascii)        (* the character itself *)
  | Dot                    (* [.]: anything but a newline *)
  | Digit                  (* [\d] *)
  | Space.                 (* [\s] *)

Inductive regex :=
  | Eps                               (* the empty pattern *)
  | One (cs : charset)                (* one character *)
  | Seq (r1 r2 : regex)
  | LazyStar (cs : charset)           (* [cs*?] *)
  | Plus (cs : charset)               (* [cs+] *)
  | Repeat (n : nat) (cs : charset)   (* [cs{n}] *)
  | Group (r : regex)                 (* a capturing group *)
  | Bol                               (* [^] *)
  | Eol.                              (* [$] *)

(** [\s] with [re.U] on a byte string: the ASCII white space, the
    separators 28 to 31, and the Latin-1 characters 133 and 160. *)
Definition is_space (c : ascii) : bool :=
  let n := Z.of_N (N_of_ascii c) in
  (n =? 32) || ((9 <=? n) && (n <=? 13)) || ((28 <=? n) && (n <=? 31))
  || (n =? 133) || (n =? 160).

Definition accepts (cs : charset) (c : ascii) : bool :=
  match cs with
  | Lit a => Ascii.eqb c a
  | Dot => negb (Ascii.eqb c newline)
  | Digit => PyStr.is_digit c
  | Space => is_space c
  end.

(** A literal run of characters. *)
Fixpoint text (s : string) : regex :=
  match s with
  | EmptyString => Eps
  | String c s' => Seq (One (Lit c)) (text s')
  end.

(** The first [n] characters of [s]. *)
Fixpoint take (n : nat) (s : string) : string :=
  match n, s with
  | S n', String c s' => String c (take n' s')
  | _, _ => EmptyString
  end.

Definition cont := nat -> string -> list string -> option (list string).

(** [run r pos s caps k]: match [r] against [s], which starts at offset
    [pos] of the subject; [caps] are the groups closed so far; [k]
    continues with the rest of the pattern. *)
Fixpoint run (r : regex) (pos : nat) (s : string) (caps : list string)
  (k : cont) : option (list string) :=
  match r with
  | Eps => k pos s caps
  | One cs =>
      match s with
      | String c s' => if accepts cs c then k (S pos) s' caps else None
      | EmptyString => None
      end
  | Seq r1 r2 => run r1 pos s caps (fun pos' s' caps' => run r2 pos' s' caps' k)
  | LazyStar cs =>
      (fix go (pos : nat) (s : string) : option (list string) :=
         match k pos s caps with
         | Some m => Some m
         | None =>
             match s with
             | String c s' => if accepts cs c then go (S pos) s' else None
             | EmptyString => None
             end
         end) pos s
  | Plus cs =>
      (fix go (pos : nat) (s : string) : option (list string) :=
         match s with
         | String c s' =>
             if accepts cs c then
               match go (S pos) s' with
               | Some m => Some m
               | None => k (S pos) s' caps
               end
             else None
         | EmptyString => None
         end) pos s
  | Repeat n cs =>
      (fix go (n : nat) (pos : nat) (s : string) : option (list string) :=
         match n with
         | O => k pos s caps
         | S n' =>
             match s with
             | String c s' => if accepts cs c then go n' (S pos) s' else None
             | EmptyString => None
             end
         end) n pos s
  | Group r1 =>
      run r1 pos s caps
        (fun pos' s' caps' => k pos' s' (caps' ++ [take (pos' - pos) s]))
  | Bol => if Nat.eqb pos 0 then k pos s caps else None
  | Eol =>
      match s with
      | EmptyString => k pos s caps
      | String c EmptyString => if Ascii.eqb c newline then k pos s caps else None
      | _ => None
      end
  end.

(** [pattern.match(line)]: the pattern must match at the start of the
    line; the result is the list of groups, [group(1)] first. *)
Definition match_ (r : regex) (line : string) : option (list string) :=
  run r 0 line [] (fun _ _ caps => Some caps).

(** [m.group(i)] for [i >= 1]. *)
Definition group (m : list string) (i : nat) : outcome string :=
  match nth_error m (i - 1) with
  | Some g => Return g
  | None => Raise IndexError
  end.

End Re.

(** ** Python floats

    [get_video_metadata] converts some fields with [float], [math.ceil]
    and [int].  Binary floating point is not modelled: the three
    operations are the fields of a class, and everything below holds for
    every instance. *)

Class PyFloat := {
  float : Type;
  (** [float(s)] for a string; [None] is a [ValueError]. *)
  float_of_str : string -> option float;
  (** [math.ceil(x)], a float in Python 2. *)
  float_ceil : float -> float;
  (** [int(x)]: an [OverflowError] for an infinity, a [ValueError] for a
      NaN. *)
  float_to_int : float -> outcome Z
}.

Section Definitions.

Context {FM : PyFloat}.

(** ** Values, objects and the world *)

(** A value of the metadata dictionary. *)
Inductive mval :=
  | MText (s : string)
  | MInt (n : Z)
  | MFloat (x : float)
  | MBool (b : bool).

(** Dictionaries are objects on the heap, named by their address, so that
    two names for one dictionary see each other's updates. *)
Definition loc := nat.

Inductive obj :=
  | MetadataDict (d : gmap string mval)
  | SnapshotDict (d : gmap Z string).

(** What the program can observe and change: the utilities that can be
    started, the behaviour of the shell (for a command line and the files
    of the moment: the successive results of [readline] on the merged
    output, ended by the end of the stream, and the files afterwards), the
    files with their sizes, the heap, and three logs: the command lines
    given to the shell, the calls of [process_handler(old, new)], and the
    lines printed. *)
Record World := mkWorld {
  utilities : gset string;
  run_command : string -> gmap string N -> list string * gmap string N;
  files : gmap string N;
  heap : gmap loc obj;
  launched : list string;
  progress : list (Z * Z);
  stdout : list string
}.

Definition set_files (f : gmap string N) (w : World) : World :=
  mkWorld (utilities w) (run_command w) f (heap w) (launched w) (progress w) (stdout w).
Definition set_heap (h : gmap loc obj) (w : World) : World :=
  mkWorld (utilities w) (run_command w) (files w) h (launched w) (progress w) (stdout w).
Definition set_launched (l : list string) (w : World) : World :=
  mkWorld (utilities w) (run_command w) (files w) (heap w) l (progress w) (stdout w).
Definition set_progress (p : list (Z * Z)) (w : World) : World :=
  mkWorld (utilities w) (run_command w) (files w) (heap w) (launched w) p (stdout w).
Definition set_stdout (o : list string) (w : World) : World :=
  mkWorld (utilities w) (run_command w) (files w) (heap w) (launched w) (progress w) o.

(** ** The monad of the module's functions: state and exceptions *)

Definition M (A : Type) : Type := World -> outcome A * World.

Definition ret {A} (a : A) : M A := fun w => (Return a, w).
Definition raise {A} (e : exn) : M A := fun w => (Raise e, w).
Definition bind {A B} (m : M A) (k : A -> M B) : M B :=
  fun w =>
    match m w with
    | (Return a, w') => k a w'
    | (Raise e, w') => (Raise e, w')
    end.
Definition lift {A} (o : outcome A) : M A := fun w => (o, w).

Notation "x <- m ;; k" := (bind m (fun x => k))
  (at level 100, m at next level, right associativity).
Notation "m ;;; k" := (bind m (fun _ => k))
  (at level 100, right associativity).

(** [for x in xs: body(x)]. *)
Fixpoint for_each {A} (xs : list A) (body : A -> M unit) : M unit :=
  match xs with
  | [] => ret tt
  | x :: rest => body x ;;; for_each rest body
  end.

(** [print text]. *)
Definition print (text : string) : M unit :=
  fun w => (Return tt, set_stdout (stdout w ++ [text]) w).

(** ** The operating system *)

(** [os.path.getsize(path)]: an [OSError] when there is no such file. *)
Definition os_path_getsize (path : string) : M N :=
  fun w =>
    match files w !! path with
    | Some n => (Return n, w)
    | None => (Raise OSError, w)
    end.

(** [os.remove(path)]. *)
Definition os_remove (path : string) : M unit :=
  fun w =>
    match files w !! path with
    | Some _ => (Return tt, set_files (delete path (files w)) w)
    | None => (Raise OSError, w)
    end.

(** [os.rename(src, dst)]: [dst] is replaced when it exists. *)
Definition os_rename (src dst : string) : M unit :=
  fun w =>
    match files w !! src with
    | Some n => (Return tt, set_files (<[dst := n]> (delete src (files w))) w)
    | None => (Raise OSError, w)
    end.

(** ** check_utility and require_utility (conv.py, lines 35 and 53) *)

(** [subprocess.check_call([command, '--help'])] raises [OSError] when the
    utility cannot be started, and [CalledProcessError], which is passed
    over, when it exits with a non-zero status.  The utility is started
    directly, not through the shell, with its output captured and
    dropped: the run of [command --help] is no entry of the log of the
    command lines given to the shell, and the world records nothing of
    it. *)
Definition check_utility (command : string) : M unit :=
  fun w =>
    if decide (command ∈ utilities w) then (Return tt, w)
    else (Raise (UtilityNotFound ("Utility " +++ command +++ " not found")), w).

Definition require_utility {A} (requirements : list string) (function : M A) : M A :=
  for_each requirements check_utility ;;; function.

(** ** popen (conv.py, line 72) *)

(** The loop of [popen] over the results of [stream.readline()].  The list
    [reads] holds the results up to the end of the stream, blank ones
    included; at the end of the stream every further read is blank, the
    loop counts them past the threshold and leaves. *)
Fixpoint popen_loop {S} (handler : option (string -> S -> M S)) (miss_count : Z)
  (reads : list string) (eof_count : Z) (st : S) : M S :=
  match reads with
  | [] => ret st
  | line :: rest =>
      if len line <? 1 then
        if eof_count >? miss_count then ret st
        else popen_loop handler miss_count rest (eof_count + 1) st
      else
        (* eof_count = 0 *)
        match handler with
        | Some h => st' <- h line st ;; popen_loop handler miss_count rest 0 st'
        | None => popen_loop handler miss_count rest 0 st
        end
  end.

(** Starting the command under the shell. *)
Definition subprocess_Popen (command : string) : M (list string) :=
  fun w =>
    let '(reads, files') := run_command w command (files w) in
    (Return reads, set_launched (launched w ++ [command]) (set_files files' w)).

(** [popen(command, handler, kwargs, miss_count)]; the keyword arguments
    of the handler that it updates in place are the state [st]. *)
Definition popen {S} (command : string) (handler : option (string -> S -> M S))
  (miss_count : Z) (st : S) : M S :=
  reads <- subprocess_Popen command ;;
  popen_loop handler miss_count reads 0 st.

Definition default_miss_count : Z := 5.


(** ** get_video_metadata (conv.py, line 113) *)

Inductive filter := f_unicode | f_int | f_float | f_ceil | f_bool.

(** One step of [val = f(val)].  The value starts as the text after the
    equals sign, and the table below applies only the chains [unicode],
    [int], [float], [float, math.ceil, int] and [bool]. *)
Definition apply_filter (f : filter) (val : mval) : outcome mval :=
  match f, val with
  | f_unicode, MText s =>
      if PyStr.is_ascii s then Return (MText s) else Raise UnicodeDecodeError
  | f_int, MText s =>
      match PyStr.int_of_str s with
      | Return n => Return (MInt n)
      | Raise e => Raise e
      end
  | f_int, MFloat x =>
      match float_to_int x with
      | Return n => Return (MInt n)
      | Raise e => Raise e
      end
  | f_float, MText s =>
      match float_of_str s with
      | Some x => Return (MFloat x)
      | None => Raise ValueError
      end
  | f_ceil, MFloat x => Return (MFloat (float_ceil x))
  | f_bool, MText s => Return (MBool (negb (String.eqb s "")))
  | _, _ => Raise TypeError
  end.

Fixpoint apply_filters (fs : list filter) (val : mval) : outcome mval :=
  match fs with
  | [] => Return val
  | f :: rest =>
      match apply_filter f val with
      | Return val' => apply_filters rest val'
      | Raise e => Raise e
      end
  end.

(** String marker, dictionary key, filters sequence. *)
Definition infomap : list (string * string * list filter) :=
  [ ("ID_AUDIO_CODEC",      "audio_codec",      [f_unicode]);
    ("ID_AUDIO_FORMAT",     "audio_format",     [f_unicode]);
    ("ID_AUDIO_BITRATE",    "audio_bitrate",    [f_int]);
    ("ID_AUDIO_RATE",       "audio_rate",       [f_int]);
    ("ID_AUDIO_NCH",        "audio_nch",        [f_int]);
    ("ID_VIDEO_FORMAT",     "video_format",     [f_unicode]);
    ("ID_VIDEO_BITRATE",    "video_bitrate",    [f_int]);
    ("ID_VIDEO_ASPECT",     "video_aspect",     [f_float]);
    ("ID_VIDEO_WIDTH",      "width",            [f_int]);
    ("ID_VIDEO_HEIGHT",     "height",           [f_int]);
    ("ID_VIDEO_FPS",        "frame_rate",       [f_float]);
    ("ID_LENGTH",           "duration",         [f_float; f_ceil; f_int]);
    ("ID_CLIP_INFO_VALUE0", "clip_info_value0", [f_unicode]);
    ("ID_VIDEO_ID",         "video_id",         [f_int]);
    ("ID_AUDIO_ID",         "audio_id",         [f_int]);
    ("ID_CLIP_INFO_N",      "clip_info_n",      [f_unicode]);
    ("ID_FILENAME",         "filename",         [f_unicode]);
    ("ID_DEMUXER",          "demuxer",          [f_unicode]);
    ("ID_SEEKABLE",         "seekable",         [f_bool]);
    ("ID_CHAPTERS",         "chapters",         [f_int]);
    ("ID_VIDEO_CODEC",      "video_codec",      [f_unicode]);
    ("ID_EXIT",             "exit",             [f_unicode]) ].

(** The body of the loop over the table, for one row. *)
Definition metadata_row (line : string) (row : string * string * list filter)
  (metadata : gmap string mval) : outcome (gmap string mval) :=
  let '(token, field, filters) := row in
  if startswith token line then
    (* key, val = line.strip().split('=', 2) *)
    match PyStr.split "=" 2 (PyStr.strip line) with
    | [key; val] =>
        match apply_filters filters (MText val) with
        | Return v => Return (<[field := v]> metadata)
        | Raise e => Raise e
        end
    | _ => Raise ValueError
    end
  else Return metadata.

Fixpoint metadata_rows (line : string) (rows : list (string * string * list filter))
  (metadata : gmap string mval) : outcome (gmap string mval) :=
  match rows with
  | [] => Return metadata
  | row :: rest =>
      match metadata_row line row metadata with
      | Return metadata' => metadata_rows line rest metadata'
      | Raise e => Raise e
      end
  end.

Definition metadata_line_handler (line : string) (metadata : gmap string mval)
  : M (gmap string mval) :=
  if negb (startswith "ID_" line) then ret metadata
  else lift (metadata_rows line infomap metadata).

Definition get_video_metadata (filename : string) : M (gmap string mval) :=
  require_utility ["mplayer"] (
    let command := join " " ["mplayer"; "-vo null"; "-ao null"; "-frames 0";
                             "-identify"; escape_shell_arg filename] in
    metadata <- popen command (Some metadata_line_handler) default_miss_count ∅ ;;
    if Z.of_nat (size metadata) <? 2
    then raise (WrongVideoFormat "Can't parse metadata, maybe wrong format")
    else ret metadata).

(** ** make_snapshot (conv.py, line 189) *)

Definition make_snapshot_command (video_filename snapshot_filename : string)
  (position : Z) : string :=
  join " " ["ffmpeg";
            "-ss " +++ str_of_int position;
            "-i  " +++ escape_shell_arg video_filename;
            "-an -vframes 1 -y -f mjpeg";
            escape_shell_arg snapshot_filename].

Definition make_snapshot (video_filename snapshot_filename : string)
  (position : Z) : M bool :=
  require_utility ["ffmpeg"] (
    popen (make_snapshot_command video_filename snapshot_filename position)
          None default_miss_count tt ;;;
    (* If snapshot is broken (null length), delete it and returns False *)
    size <- os_path_getsize snapshot_filename ;;
    if negb (0 <? Z.of_N size) then
      os_remove snapshot_filename ;;;
      ret false
    else ret true).

(** ** inject_metadata (conv.py, line 223) *)

Definition inject_metadata (input_filename output_filename : string) : M unit :=
  require_utility ["yamdi"] (
    let command := join " " ["yamdi";
                             "-i " +++ escape_shell_arg input_filename;
                             "-o " +++ escape_shell_arg output_filename] in
    popen command None default_miss_count tt).

(** ** ConvertResult (conv.py, line 255) *)

(** The two dictionaries of the class body, [metadata = {}] and
    [snapshots = {}], are created once, when the class statement runs. *)
Definition ConvertResult_metadata : loc := 0%nat.
Definition ConvertResult_snapshots : loc := 1%nat.

(** The heap after the class statement. *)
Definition class_heap : gmap loc obj :=
  <[ConvertResult_snapshots := SnapshotDict ∅]>
    (<[ConvertResult_metadata := MetadataDict ∅]> ∅).

(** An instance holds the attributes assigned on it; an attribute it does
    not hold is read from the class. *)
Record ConvertResult := mkConvertResult {
  own_movie_original : option string;
  own_movie_converted : option string;
  own_converted : option bool;
  own_movie_info : option (gmap string mval);
  own_metadata : option loc;
  own_snapshots : option loc
}.

(** [ConvertResult()]: the class defines no [__init__]. *)
Definition new_ConvertResult : ConvertResult :=
  mkConvertResult None None None None None None.

Definition movie_original (r : ConvertResult) : string :=
  default "" (own_movie_original r).
Definition movie_converted (r : ConvertResult) : string :=
  default "" (own_movie_converted r).
Definition converted (r : ConvertResult) : bool :=
  default false (own_converted r).
Definition metadata (r : ConvertResult) : loc :=
  default ConvertResult_metadata (own_metadata r).
Definition snapshots (r : ConvertResult) : loc :=
  default ConvertResult_snapshots (own_snapshots r).
(** The class has no attribute [movie_info]. *)
Definition movie_info (r : ConvertResult) : outcome (gmap string mval) :=
  match own_movie_info r with
  | Some d => Return d
  | None => Raise AttributeError
  end.

Definition set_movie_original (v : string) (r : ConvertResult) : ConvertResult :=
  mkConvertResult (Some v) (own_movie_converted r) (own_converted r)
    (own_movie_info r) (own_metadata r) (own_snapshots r).
Definition set_movie_converted (v : string) (r : ConvertResult) : ConvertResult :=
  mkConvertResult (own_movie_original r) (Some v) (own_converted r)
    (own_movie_info r) (own_metadata r) (own_snapshots r).
Definition set_converted (v : bool) (r : ConvertResult) : ConvertResult :=
  mkConvertResult (own_movie_original r) (own_movie_converted r) (Some v)
    (own_movie_info r) (own_metadata r) (own_snapshots r).
Definition set_movie_info (v : gmap string mval) (r : ConvertResult) : ConvertResult :=
  mkConvertResult (own_movie_original r) (own_movie_converted r) (own_converted r)
    (Some v) (own_metadata r) (own_snapshots r).

(** [d[key] = value] on the snapshot dictionary at address [l]. *)
Definition snapshots_setitem (l : loc) (key : Z) (value : string) : M unit :=
  fun w =>
    match heap w !! l with
    | Some (SnapshotDict d) =>
        (Return tt, set_heap (<[l := SnapshotDict (<[key := value]> d)]> (heap w)) w)
    | _ => (Raise TypeError, w)
    end.

(** [d.get(key)] on the snapshot dictionary at address [l]. *)
Definition snapshots_get (l : loc) (key : Z) (w : World) : option string :=
  match heap w !! l with
  | Some (SnapshotDict d) => d !! key
  | _ => None
  end.

(** ** The converter classes (conv.py, line 278) *)

(** The class of [self] decides which methods exist: [BaseConverter]
    has neither [get_encode_command] nor [parse_converter_output],
    [MencoderConverter] (with [H263Converter] and [H264Converter]) has
    both, [FFMpegConverter] only [parse_converter_output]. *)
Inductive family := Base | Mencoder | FFMpeg.

(** The attributes of [self]; [None] is Python's [None]. *)
Record Converter := mkConverter {
  cls : family;
  width : option Z;
  height : option Z;
  sample_rate : option Z;
  output_format : string;
  video_codec : string;
  video_opts : option string;
  video_opts_prefix : string;
  audio_codec : string;
  audio_opts : option string;
  audio_opts_prefix : string
}.

(** Truth value of an integer-or-[None] and of a string-or-[None]. *)
Definition truthy_int (v : option Z) : bool :=
  match v with
  | Some n => negb (n =? 0)
  | None => false
  end.
Definition truthy_str (v : option string) : bool :=
  match v with
  | Some s => negb (String.eqb s "")
  | None => false
  end.
Definition nonempty (s : string) : bool := negb (String.eqb s "").

(** ['{x}'.format(x=v)] and ['%s' % v]. *)
Definition format_int (v : option Z) : string :=
  match v with
  | Some n => str_of_int n
  | None => "None"
  end.
Definition format_str (v : option string) : string := default "None" v.

(** The class attributes. *)
Definition BaseConverter_attrs (c : family) : Converter :=
  mkConverter c (Some 640) (Some 480) (Some 22050) "lavf"
    "lavc" None "" "lavc" None "".

Definition H263Converter_attrs : Converter :=
  mkConverter Mencoder (Some 640) (Some 480) (Some 22050) "lavf"
    "lavc"
    (Some "vcodec=flv:vbitrate=700:trell:v4mv:mv0:mbd=2:cbp:aic:cmp=3:subcmp=3")
    ""
    "mp3lame" (Some "abr:br=64") "lameopts".

Definition H264Converter_attrs : Converter :=
  mkConverter Mencoder (Some 640) (Some 480) (Some 22050) "lavf"
    "x264" (Some "") "x264encopts"
    "mp3lame" (Some "abr:br=64") "lameopts".

(** [__init__(self, width=..., height=...)]:
    [self.width = kwargs.get('width') or self.width]. *)
Definition init (attrs : Converter) (kw_width kw_height : option Z) : Converter :=
  mkConverter (cls attrs)
    (if truthy_int kw_width then kw_width else width attrs)
    (if truthy_int kw_height then kw_height else height attrs)
    (sample_rate attrs) (output_format attrs)
    (video_codec attrs) (video_opts attrs) (video_opts_prefix attrs)
    (audio_codec attrs) (audio_opts attrs) (audio_opts_prefix attrs).

(** [process_handler(self, old, new)]: [print '%s\t->\t%s' % (old, new)]. *)
Definition process_handler (old new : Z) : M unit :=
  (fun w => (Return tt, set_progress (progress w ++ [(old, new)]) w)) ;;;
  print (str_of_int old +++ String tab "->" +++ String tab (str_of_int new)).

(** *** MencoderConverter.get_encode_command (conv.py, line 389) *)

Definition input_filename (input_file : string) : string :=
  escape_shell_arg input_file.

Definition output_filename (output_file : string) : string :=
  "-o " +++ output_file.

Definition container (self : Converter) : string :=
  "-of " +++ output_format self.

Definition vcodec (self : Converter) : string :=
  "-ovc " +++ video_codec self.

Definition vcodec_opts (self : Converter) : string :=
  if negb (truthy_str (video_opts self)) then ""
  else
    let param := video_codec self +++ "opts" in
    let param := if nonempty (video_opts_prefix self)
                 then video_opts_prefix self else param in
    "-" +++ param +++ " " +++ format_str (video_opts self).

Definition acodec (self : Converter) : string :=
  if negb (nonempty (audio_codec self)) then ""
  else "-oac " +++ audio_codec self.

Definition acodec_opts (self : Converter) : string :=
  if negb (truthy_str (audio_opts self)) then ""
  else
    let param := audio_codec self +++ "opts" in
    let param := if nonempty (audio_opts_prefix self)
                 then audio_opts_prefix self else param in
    "-" +++ param +++ " " +++ format_str (audio_opts self).

Definition sample_rate_arg (self : Converter) : string :=
  if truthy_int (sample_rate self)
  then "-srate " +++ format_int (sample_rate self) else "".

Definition video_filters (self : Converter) : string :=
  let bits :=
    if truthy_int (width self) && truthy_int (height self) then
      ["scale=" +++ format_int (width self) +++ ":" +++ format_int (height self)]
    else if truthy_int (width self) && negb (truthy_int (height self)) then
      ["scale=" +++ format_int (width self) +++ ":-"]
    else if negb (truthy_int (width self)) && truthy_int (height self) then
      ["scale=-:" +++ format_int (height self)]
    else [] in
  match bits with
  | [] => ""
  | _ => "-vf " +++ join "," bits
  end.

Definition mencoder_command (self : Converter) (input_file output_file : string)
  : string :=
  join " " ["mencoder";
            input_filename input_file;
            output_filename output_file;
            container self;
            vcodec self;
            vcodec_opts self;
            acodec self;
            acodec_opts self;
            sample_rate_arg self;
            video_filters self].

(** [self.get_encode_command(input_file, output_file)]: the method of
    [MencoderConverter] prints the command and returns it; the other
    classes have no such attribute. *)
Definition get_encode_command (self : Converter) (input_file output_file : string)
  : M string :=
  match cls self with
  | Mencoder =>
      let cmd := mencoder_command self input_file output_file in
      print cmd ;;;
      ret cmd
  | Base | FFMpeg => raise AttributeError
  end.

(** *** MencoderConverter.parse_converter_output (conv.py, line 494) *)

Definition seq_of (rs : list Re.regex) : Re.regex :=
  fold_right Re.Seq Re.Eps rs.

(** ['^Pos:.*?\(\s*?(\d+)%\)']. *)
Definition re_pos : Re.regex :=
  seq_of [Re.Bol; Re.text "Pos:"; Re.LazyStar Re.Dot; Re.One (Re.Lit "(");
          Re.LazyStar Re.Space; Re.Group (Re.Plus Re.Digit); Re.text "%)"].

(** The value under [percent['percent']]: the integer [0] at first, then
    the text of the last percent matched. *)
Inductive pval :=
  | PInt (n : Z)
  | PStr (s : string).

(** [a != b]: an integer and a string are never equal. *)
Definition pval_ne (a b : pval) : bool :=
  match a, b with
  | PInt m, PInt n => negb (m =? n)
  | PStr s, PStr t => negb (String.eqb s t)
  | _, _ => true
  end.

(** [int(v)]. *)
Definition int_of_pval (v : pval) : outcome Z :=
  match v with
  | PInt n => Return n
  | PStr s => PyStr.int_of_str s
  end.

Definition mencoder_line_handler (command : string) (line : string) (percent : pval)
  : M pval :=
  if contains "Error parsing option on the command line" line then
    raise (WrongCommandLine
             ("Parse error in command:" +++ String newline command
              +++ String newline ""))
  else
    (* Retrieve current progress position *)
    match Re.match_ re_pos line with
    | Some pos_match =>
        curr <- lift (Re.group pos_match 1) ;;
        if pval_ne percent (PStr curr) then
          old <- lift (int_of_pval percent) ;;
          new <- lift (PyStr.int_of_str curr) ;;
          process_handler old new ;;;
          ret (PStr curr)
        else ret percent
    | None => ret percent
    end.

Definition mencoder_parse_converter_output (self : Converter)
  (input_file output_file : string) : M bool :=
  command <- get_encode_command self input_file output_file ;;
  popen command (Some (mencoder_line_handler command)) default_miss_count (PInt 0) ;;;
  ret true.

(** *** FFMpegConverter.parse_converter_output (conv.py, line 527) *)

(** ['^Duration: (d{2}):(d{2}):(d{2}).(d{2})$']: the [d] is the letter, and
    the dot before the last group is any character. *)
Definition re_duration : Re.regex :=
  seq_of [Re.Bol; Re.text "Duration: ";
          Re.Group (Re.Repeat 2 (Re.Lit "d")); Re.text ":";
          Re.Group (Re.Repeat 2 (Re.Lit "d")); Re.text ":";
          Re.Group (Re.Repeat 2 (Re.Lit "d")); Re.One Re.Dot;
          Re.Group (Re.Repeat 2 (Re.Lit "d")); Re.Eol].

(** ['time=(d{2}):(d{2}):(d{2})\.(\d{2})']. *)
Definition re_progress : Re.regex :=
  seq_of [Re.text "time=";
          Re.Group (Re.Repeat 2 (Re.Lit "d")); Re.text ":";
          Re.Group (Re.Repeat 2 (Re.Lit "d")); Re.text ":";
          Re.Group (Re.Repeat 2 (Re.Lit "d")); Re.text ".";
          Re.Group (Re.Repeat 2 Re.Digit)].

(** The dictionary [{'percent': 0, 'duration': 0}]. *)
Record ffmpeg_percent := mkPercent {
  ff_percent : Z;
  ff_duration : Z
}.

Definition bind_outcome {A B} (o : outcome A) (k : A -> outcome B) : outcome B :=
  match o with
  | Return a => k a
  | Raise e => Raise e
  end.

(** [3600 * int(g(1)) + 60 * int(g(2)) + int(g(3))]. *)
Definition time2sec (m : list string) : outcome Z :=
  bind_outcome (bind_outcome (Re.group m 1) PyStr.int_of_str) (fun h =>
  bind_outcome (bind_outcome (Re.group m 2) PyStr.int_of_str) (fun mi =>
  bind_outcome (bind_outcome (Re.group m 3) PyStr.int_of_str) (fun s =>
  Return (3600 * h + 60 * mi + s)))).

(** The name [duration] is local to the handler: it is bound only by the
    assignment under [if duration_match], in the same call. *)
Definition ffmpeg_line_handler (line : string) (percent : ffmpeg_percent)
  : M ffmpeg_percent :=
  let duration_match := Re.match_ re_duration line in
  let progress_match := Re.match_ re_progress line in
  duration <- match duration_match with
              | Some m => d <- lift (time2sec m) ;; ret (Some d)
              | None => ret None
              end ;;
  match progress_match with
  | Some m =>
      curr <- match duration with
              | None => raise UnboundLocalError
              | Some d =>
                  if negb (d =? 0) then
                    t <- lift (time2sec m) ;;
                    ret (t * 100 / d)
                  else ret 0
              end ;;
      if negb (ff_percent percent =? curr) then
        process_handler (ff_percent percent) curr ;;;
        ret (mkPercent curr (ff_duration percent))
      else ret percent
  | None => ret percent
  end.

Definition ffmpeg_parse_converter_output (self : Converter)
  (input_file output_file : string) : M unit :=
  command <- get_encode_command self input_file output_file ;;
  popen "" (Some ffmpeg_line_handler) default_miss_count (mkPercent 0 0) ;;;
  ret tt.

(** *** BaseConverter (conv.py, line 301) *)

(** [hasattr(self, 'parse_converter_output')]. *)
Definition has_parse_converter_output (self : Converter) : bool :=
  match cls self with
  | Base => false
  | Mencoder | FFMpeg => true
  end.

(** [self.parse_converter_output(input_file, output_file, **kwargs)]; the
    value it returns is dropped by the caller. *)
Definition parse_converter_output (self : Converter) (input_file output_file : string)
  : M unit :=
  match cls self with
  | Mencoder => mencoder_parse_converter_output self input_file output_file ;;; ret tt
  | FFMpeg => ffmpeg_parse_converter_output self input_file output_file
  | Base => raise AttributeError
  end.

Definition encode (self : Converter) (input_file output_file : string) : M bool :=
  (if has_parse_converter_output self
   then parse_converter_output self input_file output_file
   else ret tt) ;;;
  command <- get_encode_command self input_file output_file ;;
  popen command None default_miss_count tt ;;;
  ret true.

Definition snapshot_filename (result : ConvertResult) (second : Z) : string :=
  movie_converted result +++ "_" +++ str_of_int second +++ ".jpeg".

(** [xrange(start, stop, step)] as the list of its elements; a zero step
    is a [ValueError]. *)
Definition xrange (start stop step : Z) : outcome (list Z) :=
  if step =? 0 then Raise ValueError
  else
    let count :=
      if 0 <? step then (stop - start + step - 1) / step
      else (start - stop - step - 1) / (- step) in
    Return (map (fun i : nat => start + Z.of_nat i * step)
                (seq 0 (Z.to_nat count))).

(** The positions of the snapshots, in seconds, for a duration and a
    number of steps.  [step] is the float [math.floor(float(duration / num))],
    whose value is the integer quotient; it is taken here as that integer,
    as the interpreters that accept a float step in [xrange] do.  The code
    goes through a double for the step and for the middle,
    [math.floor(float(duration) / 2)]: the quotients below are what it
    computes as long as the duration is below 2^53, where a double holds
    every integer exactly; the results on the plan of an arbitrary
    duration are stated within that bound. *)
Definition snapshot_seconds (duration num : Z) : outcome (list Z) :=
  if num =? 0 then Raise ZeroDivisionError
  else
    let step := duration / num in
    bind_outcome (xrange 1 (duration - 1) step) (fun seconds =>
    Return (seconds ++ [duration] ++ [duration / 2])).

(** [result.movie_info['duration']]. *)
Definition movie_duration (result : ConvertResult) : outcome Z :=
  bind_outcome (movie_info result) (fun info =>
  match info !! "duration" with
  | Some (MInt d) => Return d
  | Some _ => Raise TypeError
  | None => Raise KeyError
  end).

(** The body of [for position in seconds]. *)
Definition snapshot_at (result : ConvertResult) (position : Z) : M unit :=
  let thumb_filename := snapshot_filename result position in
  ok <- make_snapshot (movie_converted result) thumb_filename position ;;
  if ok then snapshots_setitem (snapshots result) position thumb_filename
  else ret tt.

Definition BaseConverter_make_snapshot (result : ConvertResult) (num : Z) : M unit :=
  (* Gets movie duration in seconds *)
  duration <- lift (movie_duration result) ;;
  (* Gets list of target positions (in seconds) *)
  seconds <- lift (snapshot_seconds duration num) ;;
  for_each seconds (snapshot_at result).

Definition get_movie_info (input_file : string) : M (gmap string mval) :=
  get_video_metadata input_file.

Definition BaseConverter_inject_metadata (output_file : string) : M unit :=
  inject_metadata output_file (output_file +++ ".yamdi") ;;;
  os_remove output_file ;;;
  os_rename (output_file +++ ".yamdi") output_file.

Definition convert (self : Converter) (input_file output_file : string)
  : M ConvertResult :=
  let result := new_ConvertResult in
  let result := set_movie_original input_file result in
  info <- get_movie_info input_file ;;
  let result := set_movie_info info result in
  ok <- encode self input_file output_file ;;
  let result := set_converted ok result in
  if converted result then
    let result := set_movie_converted output_file result in
    BaseConverter_make_snapshot result 10 ;;;
    BaseConverter_inject_metadata output_file ;;;
    ret result
  else ret result.

(** [convert] with the test [if result.converted] taken as passed: the
    four stages one after the other. *)
Definition convert_stages (self : Converter) (input_file output_file : string)
  : M ConvertResult :=
  info <- get_movie_info input_file ;;
  encode self input_file output_file ;;;
  let result :=
    set_movie_converted output_file
      (set_converted true
         (set_movie_info info (set_movie_original input_file new_ConvertResult))) in
  BaseConverter_make_snapshot result 10 ;;;
  BaseConverter_inject_metadata output_file ;;;
  ret result.

(** The world once the command has been started and its output read. *)
Definition after_command (command : string) (w : World) : World :=
  set_launched (launched w ++ [command])
    (set_files (snd (run_command w command (files w))) w).

(** The command of the snapshot of [result] at [position]. *)
Definition snapshot_command_at (result : ConvertResult) (position : Z) : string :=
  make_snapshot_command (movie_converted result)
    (snapshot_filename result position) position.



(** A handler that keeps the lines it is given. *)
Definition keep_lines (line : string) (seen : list string) : M (list string) :=
  ret (seen ++ [line]).

(** ** Notions used to state further properties *)

(** The first requirement that cannot be started, if any. *)
Fixpoint first_missing (requirements : list string) (w : World) : option string :=
  match requirements with
  | [] => None
  | r :: rest =>
      if decide (r ∈ utilities w) then first_missing rest w else Some r
  end.

(** [handler] on each line in turn, stopping at the first exception. *)
Fixpoint handle_all {S} (handler : string -> S -> M S) (lines : list string)
  (st : S) : M S :=
  match lines with
  | [] => ret st
  | line :: rest => st' <- handler line st ;; handle_all handler rest st'
  end.

(** A read of length zero. *)
Definition blank_read (line : string) : bool := len line <? 1.

(** The length of the longest run of blank reads, the run in progress
    having [cur] of them already. *)
Fixpoint longest_blank_run (cur : nat) (reads : list string) : nat :=
  match reads with
  | [] => cur
  | line :: rest =>
      if blank_read line then longest_blank_run (S cur) rest
      else Nat.max cur (longest_blank_run 0 rest)
  end.


(** The command line of the probe, as [get_video_metadata] joins it. *)
Definition get_video_metadata_command (filename : string) : string :=
  join " " ["mplayer"; "-vo null"; "-ao null"; "-frames 0"; "-identify";
            escape_shell_arg filename].

(** The command line of the injector, as [inject_metadata] joins it. *)
Definition inject_metadata_command (input_filename output_filename : string)
  : string :=
  join " " ["yamdi";
            "-i " +++ escape_shell_arg input_filename;
            "-o " +++ escape_shell_arg output_filename].


(** Two worlds that differ at most in what was printed and reported. *)
Definition same_system (w w' : World) : Prop :=
  utilities w' = utilities w /\ run_command w' = run_command w
  /\ files w' = files w /\ heap w' = heap w /\ launched w' = launched w.







End Definitions.

Notation "x <- m ;; k" := (bind m (fun x => k))
  (at level 100, m at next level, right associativity).
Notation "m ;;; k" := (bind m (fun _ => k))
  (at level 100, right associativity).

(** ** An instance of the floats, and a world to run the program in

    Decimal numerals read exactly, as a numerator over a power of ten.
    The general results do not depend on it; it serves to run the
    definitions on concrete inputs. *)

Definition decimal : Type := Z * nat.

Definition decimal_of_str (s : string) : option decimal :=
  let t := PyStr.strip s in
  let '(sign, body) :=
    match t with
    | String "-" u => (-1, u)
    | String "+" u => (1, u)
    | _ => (1, t)
    end in
  match PyStr.split "." 1 body with
  | [i] => option_map (fun n => (sign * n, 0%nat)) (PyStr.unsigned_value i)
  | [i; f] =>
      match PyStr.digits_value 0 i, PyStr.digits_value 0 f with
      | Some a, Some b =>
          if String.eqb (i +++ f) "" then None
          else Some (sign * (a * 10 ^ Z.of_nat (String.length f) + b), String.length f)
      | _, _ => None
      end
  | _ => None
  end.

Definition decimal_ceil (x : decimal) : decimal :=
  let '(m, k) := x in (- ((- m) / 10 ^ Z.of_nat k), 0%nat).

Definition decimal_to_int (x : decimal) : outcome Z :=
  let '(m, k) := x in Return (Z.quot m (10 ^ Z.of_nat k)).

#[local] Instance DecimalFloat : PyFloat := {|
  float := decimal;
  float_of_str := decimal_of_str;
  float_ceil := decimal_ceil;
  float_to_int := decimal_to_int
|}.

(** A shell in which the probe reports a clip of 99.2 seconds, the
    encoder writes its output file and reports its progress, the
    thumbnailer writes a picture, except at second 100 where it leaves an
    empty file, and the injector writes its output file. *)
Definition demo_shell (command : string) (fs : gmap string N)
  : list string * gmap string N :=
  match shell_split command with
  | Some ("mplayer" :: _) =>
      (["MPlayer" +++ String newline "";
        "ID_VIDEO_WIDTH=320" +++ String newline "";
        "ID_VIDEO_HEIGHT=240" +++ String newline "";
        "ID_LENGTH=99.2" +++ String newline ""], fs)
  | Some ("mencoder" :: _ :: "-o" :: out :: _) =>
      (["Pos:   9.9s    248f (10%) 25.00fps" +++ String newline "";
        "";
        "Pos:  10.1s    252f (10%) 25.00fps" +++ String newline "";
        "Pos:  24.8s    620f (25%) 25.00fps" +++ String newline ""],
       <[out := 4096%N]> fs)
  | Some ["ffmpeg"; "-ss"; pos; "-i"; video; "-an"; "-vframes"; "1"; "-y";
          "-f"; "mjpeg"; snap] =>
      ([], <[snap := if String.eqb pos "100" then 0%N else 512%N]> fs)
  | Some ["yamdi"; "-i"; inp; "-o"; out] =>
      ([], match fs !! inp with
           | Some n => <[out := (n + 64)%N]> fs
           | None => fs
           end)
  | _ => ([], fs)
  end.

Definition demo_world : World :=
  mkWorld {["mplayer"; "ffmpeg"; "yamdi"]} demo_shell
          {["in.avi" := 100000%N]} class_heap [] [] [].

(** A shell whose thumbnailer writes no file at all. *)
Definition silent_world : World :=
  mkWorld {["mplayer"; "ffmpeg"; "yamdi"]} (fun _ fs => ([], fs))
          ∅ class_heap [] [] [].

(** The index of the first occurrence of a word in a command line split
    into words. *)
Fixpoint position_of (word : string) (words : list string) : option nat :=
  match words with
  | [] => None
  | w :: rest =>
      if String.eqb w word then Some 0%nat
      else option_map S (position_of word rest)
  end.

(** Status lines of mencoder at 10, 10 and 25 percent, and one at 0 percent. *)
Definition pos_line_10 : string :=
  "Pos:   9.9s    248f (10%) 25.00fps Trem:   0min   3mb  A-V:0.000 [0:0]"
  +++ String newline "".
Definition pos_line_10_again : string :=
  "Pos:  10.1s    252f (10%) 25.00fps Trem:   0min   3mb  A-V:0.000 [0:0]"
  +++ String newline "".
Definition pos_line_25 : string :=
  "Pos:  24.8s    620f (25%) 25.00fps Trem:   0min   3mb  A-V:0.000 [0:0]"
  +++ String newline "".
Definition pos_line_0 : string :=
  "Pos:   0.0s      1f ( 0%)  0.00fps Trem:   0min   0mb  A-V:0.000 [0:0]"
  +++ String newline "".

(** Lines of ffmpeg: a duration of 100 seconds, a time of 50 seconds; and
    the lines the two patterns of the tracker do match. *)
Definition duration_line_100 : string := "Duration: 00:01:40.00" +++ String newline "".
Definition time_line_50 : string := "time=00:00:50.00 bitrate= 700.0kbits/s".
Definition duration_line_letters : string := "Duration: dd:dd:dd.dd".
Definition time_line_letters : string := "time=dd:dd:dd.00".

(** The text that [mencoder_line_handler] looks for in every line. *)
Definition error_signature : string := "Error parsing option on the command line".

(** A result as [convert] has it before the snapshots, for a clip of 100
    seconds converted to [out.flv]. *)
Definition demo_result : ConvertResult :=
  set_movie_converted "out.flv"
    (set_converted true
       (set_movie_info {["duration" := MInt 100]}
          (set_movie_original "in.avi" new_ConvertResult))).

(** The converter of the module's own main program. *)
Definition demo_converter : Converter :=
  init H264Converter_attrs (Some 640) (Some 480).

(** A character that the splitter takes literally outside quotes.  The
    splitter knows blanks, quotes and the backslash only: a semicolon, a
    bar, an ampersand, a dollar sign and the like pass for ordinary
    characters here, which they are for the shell inside single quotes
    but not outside (see [safe_char]). *)
Definition plain_char (c : ascii) : bool :=
  negb (is_blank c) && negb (Ascii.eqb c quote) && negb (Ascii.eqb c dquote)
  && negb (Ascii.eqb c backslash).

Fixpoint plain_word (s : string) : bool :=
  match s with
  | EmptyString => true
  | String c s' => plain_char c && plain_word s'
  end.

(** A converter of the mencoder family with a width and no height, and
    one with a height and no width. *)
Definition width_only : Converter :=
  mkConverter Mencoder (Some 640) None (Some 22050) "lavf"
    "lavc" None "" "mp3lame" (Some "abr:br=64") "lameopts".

Definition height_only : Converter :=
  mkConverter Mencoder None (Some 480) (Some 22050) "lavf"
    "lavc" None "" "mp3lame" (Some "abr:br=64") "lameopts".

(** The rows of the table whose value is an integer: marker and key. *)
Definition int_fields : list (string * string) :=
  [ ("ID_AUDIO_BITRATE", "audio_bitrate");
    ("ID_AUDIO_RATE",    "audio_rate");
    ("ID_AUDIO_NCH",     "audio_nch");
    ("ID_VIDEO_BITRATE", "video_bitrate");
    ("ID_VIDEO_WIDTH",   "width");
    ("ID_VIDEO_HEIGHT",  "height");
    ("ID_VIDEO_ID",      "video_id");
    ("ID_AUDIO_ID",      "audio_id");
    ("ID_CHAPTERS",      "chapters") ].

(** No character of the string is one that [strip] removes. *)
Fixpoint no_whitespace (s : string) : bool :=
  match s with
  | EmptyString => true
  | String c s' => negb (PyStr.is_whitespace c) && no_whitespace s'
  end.

(** The string has no equals sign. *)
Fixpoint no_equals (s : string) : bool :=
  match s with
  | EmptyString => true
  | String c s' => negb (Ascii.eqb c "=") && no_equals s'
  end.


(** The classes of the module, by their class attributes. *)
Definition shipped_classes : list Converter :=
  [BaseConverter_attrs Base; BaseConverter_attrs Mencoder;
   BaseConverter_attrs FFMpeg; H263Converter_attrs; H264Converter_attrs].

(** [v or d] for an integer-or-[None] [v] and an integer [d]. *)
Definition or_default (v : option Z) (d : Z) : Z :=
  match v with
  | Some n => if n =? 0 then d else n
  | None => d
  end.


(** The splitter on the first part of a command line: the words it has
    completed, and the state and the word in progress it is left in. *)
Fixpoint lex_prefix (st : lex_state) (cur : string) (s : string)
  : list string * lex_state * string :=
  match s with
  | EmptyString => ([], st, cur)
  | String c s' =>
      match st with
      | Between =>
          if is_blank c then lex_prefix Between "" s'
          else if Ascii.eqb c quote then lex_prefix InSingle "" s'
          else if Ascii.eqb c dquote then lex_prefix InDouble "" s'
          else if Ascii.eqb c backslash then lex_prefix EscWord "" s'
          else lex_prefix InWord (String c "") s'
      | InWord =>
          if is_blank c then
            let '(words, st', cur') := lex_prefix Between "" s' in
            (cur :: words, st', cur')
          else if Ascii.eqb c quote then lex_prefix InSingle cur s'
          else if Ascii.eqb c dquote then lex_prefix InDouble cur s'
          else if Ascii.eqb c backslash then lex_prefix EscWord cur s'
          else lex_prefix InWord (snoc cur c) s'
      | InSingle =>
          if Ascii.eqb c quote then lex_prefix InWord cur s'
          else lex_prefix InSingle (snoc cur c) s'
      | InDouble =>
          if Ascii.eqb c dquote then lex_prefix InWord cur s'
          else if Ascii.eqb c backslash then lex_prefix EscDouble cur s'
          else lex_prefix InDouble (snoc cur c) s'
      | EscWord => lex_prefix InWord (snoc cur c) s'
      | EscDouble =>
          if Ascii.eqb c dquote || Ascii.eqb c backslash
          then lex_prefix InDouble (snoc cur c) s'
          else lex_prefix InDouble (snoc (snoc cur backslash) c) s'
      end
  end.


(** A world without any utility. *)
Definition bare_world : World :=
  mkWorld ∅ (fun _ fs => ([], fs)) ∅ class_heap [] [] [].

(** A world whose every command prints a width and a height line. *)
Definition two_field_world : World :=
  mkWorld {["mplayer"]}
          (fun _ fs => (["ID_VIDEO_WIDTH=320" +++ String newline "";
                         "ID_VIDEO_HEIGHT=240" +++ String newline ""], fs))
          ∅ class_heap [] [] [].

(** A result for a clip of 5 seconds. *)
Definition short_result : ConvertResult :=
  set_movie_info {["duration" := MInt 5]} new_ConvertResult.


(** A character that [/bin/sh] takes literally outside quotes, wherever
    it stands in a word: a letter, a digit, a dot, an underscore, a slash
    or a hyphen. *)
Definition safe_char (c : ascii) : bool :=
  let n := N_of_ascii c in
  ((97 <=? n) && (n <=? 122))%N || ((65 <=? n) && (n <=? 90))%N
  || ((48 <=? n) && (n <=? 57))%N
  || Ascii.eqb c "." || Ascii.eqb c "_" || Ascii.eqb c "/" || Ascii.eqb c "-".

Fixpoint safe_word (s : string) : bool :=
  match s with
  | EmptyString => true
  | String c s' => safe_char c && safe_word s'
  end.



(** A world whose every command prints the given lines and then closes
    its output. *)
Definition printing_world (lines : list string) : World :=
  mkWorld {["mplayer"; "ffmpeg"; "yamdi"]} (fun _ fs => (lines, fs))
          ∅ class_heap [] [] [].


(** * Properties *)

(** ** String lemmas *)

Lemma append_nil_r (s : string) : s +++ "" = s.
Proof. induction s as [|a s IH]; simpl; [reflexivity | now rewrite IH]. Qed.

Lemma append_assoc (a b c : string) : (a +++ b) +++ c = a +++ (b +++ c).
Proof. induction a as [|x a IH]; simpl; [reflexivity | now rewrite IH]. Qed.

Lemma snoc_append (cur : string) (c : ascii) (s : string) :
  snoc cur c +++ s = cur +++ String c s.
Proof. unfold snoc. now rewrite append_assoc. Qed.

(** Reading one escaped argument: from inside the opening quote, the
    splitter rebuilds the original text and is back in a word after the
    closing quote. *)
Lemma split_escaped_body (arg cur rest : string) :
  shell_split_from InSingle cur
    (replace_char quote quote_replacement arg +++ String quote rest)
  = shell_split_from InWord (cur +++ arg) rest.
Proof.
  revert cur. induction arg as [|a arg IH]; intros cur; simpl.
  - now rewrite append_nil_r.
  - destruct (Ascii.eqb a quote) eqn:E.
    + (* the four characters quote, backslash, quote, quote: leave the
         quoted stretch, take an escaped quote, open a new stretch *)
      apply Ascii.eqb_eq in E. subst a. simpl.
      rewrite IH. now rewrite snoc_append.
    + simpl. rewrite E, IH. now rewrite snoc_append.
Qed.

Lemma split_escaped_between (arg rest : string) :
  shell_split_from Between "" (escape_shell_arg arg +++ rest)
  = shell_split_from InWord arg rest.
Proof.
  unfold escape_shell_arg. simpl.
  rewrite append_assoc. simpl. now rewrite split_escaped_body.
Qed.

(** C4: splitting the escaped argument gives back exactly one word, the
    original string, for every input string. *)
Theorem escape_shell_arg_roundtrip (arg : string) :
  shell_split (escape_shell_arg arg) = Some [arg].
Proof.
  unfold shell_split.
  rewrite <- (append_nil_r (escape_shell_arg arg)).
  now rewrite split_escaped_between.
Qed.

(** ** Words of a command line *)

Lemma split_plain_word (w cur rest : string) :
  plain_word w = true ->
  shell_split_from InWord cur (w +++ rest)
  = shell_split_from InWord (cur +++ w) rest.
Proof.
  revert cur. induction w as [|c w IH]; intros cur Hw; simpl.
  - now rewrite append_nil_r.
  - simpl in Hw. apply andb_prop in Hw as [Hc Hw].
    unfold plain_char in Hc.
    repeat (apply andb_prop in Hc as [Hc ?]).
    rewrite negb_true_iff in *.
    replace (is_blank c) with false by congruence.
    replace (Ascii.eqb c quote) with false by congruence.
    replace (Ascii.eqb c dquote) with false by congruence.
    replace (Ascii.eqb c backslash) with false by congruence.
    rewrite IH by assumption. now rewrite snoc_append.
Qed.

Lemma split_plain_word_between (w rest : string) :
  plain_word w = true -> w <> "" ->
  shell_split_from Between "" (w +++ rest)
  = shell_split_from InWord w rest.
Proof.
  destruct w as [|c w]; intros Hw Hne; [congruence|]. simpl.
  simpl in Hw. apply andb_prop in Hw as [Hc Hw].
  unfold plain_char in Hc.
  repeat (apply andb_prop in Hc as [Hc ?]).
  rewrite negb_true_iff in *.
  replace (is_blank c) with false by congruence.
  replace (Ascii.eqb c quote) with false by congruence.
  replace (Ascii.eqb c dquote) with false by congruence.
  replace (Ascii.eqb c backslash) with false by congruence.
  now rewrite split_plain_word.
Qed.

Lemma string_of_uint_plain (d : Decimal.uint) :
  plain_word (NilEmpty.string_of_uint d) = true.
Proof. induction d; simpl; auto. Qed.

Lemma string_of_uint_nonempty (d : Decimal.uint) :
  d <> Decimal.Nil -> NilEmpty.string_of_uint d <> "".
Proof. destruct d; simpl; congruence. Qed.

(** The decimal text of an integer is one plain word. *)
Lemma str_of_int_plain (n : Z) :
  plain_word (str_of_int n) = true /\ str_of_int n <> "".
Proof.
  unfold str_of_int. destruct n as [|p|p]; simpl.
  - split; [reflexivity | discriminate].
  - split; [apply string_of_uint_plain |].
    apply string_of_uint_nonempty, Unsigned.to_uint_nonnil.
  - split; [apply string_of_uint_plain | discriminate].
Qed.

(** ** The snapshot command line (C3) *)

Lemma snapshot_command_words (video_filename snapshot_filename : string)
  (position : Z) :
  shell_split (make_snapshot_command video_filename snapshot_filename position)
  = Some ["ffmpeg"; "-ss"; str_of_int position; "-i"; video_filename;
          "-an"; "-vframes"; "1"; "-y"; "-f"; "mjpeg"; snapshot_filename].
Proof.
  destruct (str_of_int_plain position) as [Hp Hn].
  unfold shell_split, make_snapshot_command. simpl.
  rewrite append_assoc.
  rewrite split_plain_word_between by assumption.
  simpl. rewrite split_escaped_body.
  simpl. rewrite split_escaped_body.
  reflexivity.
Qed.

(** C3, as the code has it: for every video, target file and offset, the
    shell reads the snapshot command as twelve words, with the seek
    option [-ss] and its offset as the second and third word, before the
    input option [-i] and the video as the fourth and fifth. *)
Theorem make_snapshot_words (video_filename snapshot_filename : string) (position : Z) :
  let words := ["ffmpeg"; "-ss"; str_of_int position; "-i"; video_filename;
                "-an"; "-vframes"; "1"; "-y"; "-f"; "mjpeg"; snapshot_filename] in
  shell_split (make_snapshot_command video_filename snapshot_filename position)
  = Some words
  /\ position_of "-ss" words = Some 1%nat
  /\ position_of "-i" words = Some 3%nat.
Proof.
  cbv zeta. split; [apply snapshot_command_words|].
  destruct (str_of_int_plain position) as [Hp Hn].
  cbn [position_of]. change (String.eqb "ffmpeg" "-ss") with false.
  change (String.eqb "ffmpeg" "-i") with false.
  change (String.eqb "-ss" "-ss") with true.
  change (String.eqb "-ss" "-i") with false. cbv iota.
  split; [reflexivity|].
  destruct (String.eqb_spec (str_of_int position) "-i") as [E|_]; [|reflexivity].
  exfalso. revert E. unfold str_of_int.
  destruct position as [|p|p]; cbn; try discriminate.
  - destruct (Pos.to_uint p); cbn; discriminate.
  - destruct (Pos.to_uint p) as [|u|u|u|u|u|u|u|u|u|u]; cbn; try discriminate;
      destruct u; discriminate.
Qed.

(** C3, as stated, fails: in the command for second 10 of [movie.flv] the
    word [-ss] is at index 1 and the word [-i] at index 3, so the seek
    offset is not after the input-file argument. *)
Lemma make_snapshot_seek_before_input :
  let words := default [] (shell_split
                 (make_snapshot_command "movie.flv" "movie.flv_10.jpeg" 10)) in
  words = ["ffmpeg"; "-ss"; "10"; "-i"; "movie.flv"; "-an"; "-vframes"; "1";
           "-y"; "-f"; "mjpeg"; "movie.flv_10.jpeg"]
  /\ position_of "-ss" words = Some 1%nat
  /\ position_of "-i" words = Some 3%nat
  /\ ~ (3 < 1)%nat.
Proof. vm_compute. repeat split; lia. Qed.

(** ** The scaling filter of the mencoder command (C1) *)

(** C1, as the code has it: the filter has one of four shapes, chosen by
    which of width and height are set, and it is the last segment of the
    command; a missing side is written as a minus sign. *)
Theorem video_filters_four_shapes (self : Converter) (input_file output_file : string) :
  video_filters self =
    match truthy_int (width self), truthy_int (height self) with
    | true, true =>
        "-vf scale=" +++ format_int (width self) +++ ":" +++ format_int (height self)
    | true, false => "-vf scale=" +++ format_int (width self) +++ ":-"
    | false, true => "-vf scale=-:" +++ format_int (height self)
    | false, false => ""
    end
  /\ mencoder_command self input_file output_file =
       join " " ["mencoder"; input_filename input_file;
                 output_filename output_file; container self; vcodec self;
                 vcodec_opts self; acodec self; acodec_opts self;
                 sample_rate_arg self]
       +++ " " +++ video_filters self.
Proof.
  split.
  - unfold video_filters.
    destruct (truthy_int (width self)), (truthy_int (height self)); reflexivity.
  - unfold mencoder_command. simpl.
    repeat (rewrite ?append_assoc; simpl). reflexivity.
Qed.

(** C1, as stated, fails: with width 640 and no height the filter is
    [scale=640:-], and the text [scale=640:auto] occurs nowhere in the
    command; likewise [scale=-:480] for a height alone. *)
Lemma video_filters_not_auto :
  video_filters width_only = "-vf scale=640:-"
  /\ video_filters width_only <> "-vf scale=640:auto"
  /\ contains "scale=640:auto" (mencoder_command width_only "in.avi" "out.flv") = false
  /\ video_filters height_only = "-vf scale=-:480"
  /\ contains "auto" (mencoder_command height_only "in.avi" "out.flv") = false.
Proof. vm_compute. repeat split; discriminate. Qed.

Section Proofs.

Context {FM : PyFloat}.

(** ** The read loop of popen (C7) *)

Lemma popen_loop_no_handler {St} (miss_count : Z) (reads : list string)
  (eof_count : Z) (st : St) (w : World) :
  popen_loop None miss_count reads eof_count st w = (Return st, w).
Proof.
  revert eof_count. induction reads as [|line rest IH]; intros eof_count; simpl.
  - reflexivity.
  - destruct (len line <? 1); [destruct (eof_count >? miss_count)|]; auto.
Qed.

(** A run of [k] blank reads met with the counter at [eof_count] ends the
    loop when the counter has passed the threshold before the last of
    them, and is skipped otherwise. *)
Lemma popen_loop_blank_run {St} (handler : option (string -> St -> M St))
  (miss_count : Z) (k : nat) (rest : list string) (eof_count : Z) (st : St)
  (w : World) :
  popen_loop handler miss_count (repeat "" k ++ rest) eof_count st w =
    if (0 <? Z.of_nat k) && (eof_count + Z.of_nat k - 1 >? miss_count)
    then (Return st, w)
    else popen_loop handler miss_count rest (eof_count + Z.of_nat k) st w.
Proof.
  revert eof_count. induction k as [|k IH]; intros eof_count.
  - simpl. now rewrite Z.add_0_r.
  - cbn [repeat app popen_loop]. change (len "" <? 1) with true. cbv iota.
    rewrite !Z.gtb_ltb.
    destruct (Z.ltb_spec miss_count eof_count); [unfold ret | rewrite IH, Z.gtb_ltb];
    replace (eof_count + 1 + Z.of_nat k) with (eof_count + Z.of_nat (S k)) by lia;
    repeat match goal with
           | |- context [?a <? ?b] => destruct (Z.ltb_spec a b)
           end; simpl; try reflexivity; lia.
Qed.


(** With the default threshold a run of blank reads is skipped when it
    has at most six of them, and ends the call from seven on. *)
Lemma popen_loop_default_tolerance {St} (handler : option (string -> St -> M St))
  (k : nat) (rest : list string) (st : St) (w : World) :
  popen_loop handler default_miss_count (repeat "" k ++ rest) 0 st w =
    if (Z.of_nat k <=? 6)
    then popen_loop handler default_miss_count rest (Z.of_nat k) st w
    else (Return st, w).
Proof.
  rewrite popen_loop_blank_run. unfold default_miss_count.
  rewrite Z.gtb_ltb, Z.add_0_l.
  destruct (Z.leb_spec (Z.of_nat k) 6);
    repeat match goal with
           | |- context [?a <? ?b] => destruct (Z.ltb_spec a b)
           end; simpl; try reflexivity; lia.
Qed.

(** The threshold on any list of reads, blank reads in the middle
    included: a run of blank reads is skipped when it has up to six of
    them and ends the call from seven on; a line between two runs starts
    the count again. *)
Lemma popen_six_blank_reads_tolerated {St} (handler : option (string -> St -> M St))
  (k : nat) (rest : list string) (st : St) (w : World) :
  popen_loop handler default_miss_count (repeat "" k ++ rest) 0 st w =
    (if (Z.of_nat k <=? 6)
     then popen_loop handler default_miss_count rest (Z.of_nat k) st w
     else (Return st, w))
  /\ popen_loop (Some keep_lines) default_miss_count
       (repeat "" 6 ++ ["frame"]) 0 [] w = (Return ["frame"], w)
  /\ popen_loop (Some keep_lines) default_miss_count
       (repeat "" 7 ++ ["frame"]) 0 [] w = (Return [], w)
  /\ popen_loop (Some keep_lines) default_miss_count
       (repeat "" 4 ++ ["a"] ++ repeat "" 4 ++ ["b"]) 0 [] w
     = (Return ["a"; "b"], w).
Proof.
  split; [apply popen_loop_default_tolerance|].
  repeat split.
Qed.

(** [popen] is the loop on the reads of the command it has started. *)
Lemma popen_as_loop {St} (command : string) (handler : option (string -> St -> M St))
  (miss_count : Z) (st : St) (w : World) :
  popen command handler miss_count st w
  = popen_loop handler miss_count (fst (run_command w command (files w))) 0 st
      (after_command command w).
Proof.
  unfold popen, bind, subprocess_Popen, after_command.
  now destruct (run_command w command (files w)).
Qed.





(** ** The progress tracker of mencoder (C6) *)

(** The handler on a line that carries a percent. *)
Lemma mencoder_line_handler_percent (command line curr : string) (percent : pval)
  (w : World) :
  contains error_signature line = false ->
  Re.match_ re_pos line = Some [curr] ->
  mencoder_line_handler command line percent w =
    if pval_ne percent (PStr curr) then
      match int_of_pval percent with
      | Return old =>
          match PyStr.int_of_str curr with
          | Return new => (Return (PStr curr), snd (process_handler old new w))
          | Raise e => (Raise e, w)
          end
      | Raise e => (Raise e, w)
      end
    else (Return percent, w).
Proof.
  intros Herr Hmatch. unfold mencoder_line_handler.
  fold error_signature. rewrite Herr, Hmatch.
  unfold bind, lift, Re.group. simpl.
  destruct (pval_ne percent (PStr curr)); [|reflexivity].
  destruct (int_of_pval percent) as [old|e]; [|reflexivity].
  destruct (PyStr.int_of_str curr) as [new|e]; reflexivity.
Qed.

(** A line without a percent, and without the error signature, changes
    nothing. *)
Lemma mencoder_line_handler_other (command line : string) (percent : pval)
  (w : World) :
  contains error_signature line = false ->
  Re.match_ re_pos line = None ->
  mencoder_line_handler command line percent w = (Return percent, w).
Proof.
  intros Herr Hmatch. unfold mencoder_line_handler.
  fold error_signature. now rewrite Herr, Hmatch.
Qed.

(** A percent with the same text as the last one is not reported. *)
Lemma mencoder_same_percent_suppressed (command line curr : string) (w : World) :
  contains error_signature line = false ->
  Re.match_ re_pos line = Some [curr] ->
  mencoder_line_handler command line (PStr curr) w = (Return (PStr curr), w).
Proof.
  intros Herr Hmatch.
  rewrite (mencoder_line_handler_percent _ _ curr) by assumption.
  simpl. now rewrite String.eqb_refl.
Qed.

(** The handler on three lines at 10, 10 and 25 percent, starting from
    the integer 0: the calls [process_handler(0, 10)] and
    [process_handler(10, 25)], in this order, whatever the command and the
    world; the second line produces none. *)
Lemma mencoder_progress_events (command : string) (w : World) :
  let run := popen_loop (Some (mencoder_line_handler command)) default_miss_count
               [pos_line_10; pos_line_10_again; pos_line_25] 0 (PInt 0) w in
  fst run = Return (PStr "25")
  /\ progress (snd run) = progress w ++ [(0, 10); (10, 25)]
  /\ progress (snd (mencoder_line_handler command pos_line_10 (PInt 0) w))
     = progress w ++ [(0, 10)]
  /\ mencoder_line_handler command pos_line_10_again (PStr "10") w
     = (Return (PStr "10"), w)
  /\ progress (snd (mencoder_line_handler command pos_line_25 (PStr "10") w))
     = progress w ++ [(10, 25)].
Proof.
  assert (H1 : mencoder_line_handler command pos_line_10 (PInt 0) w
               = (Return (PStr "10"), snd (process_handler 0 10 w))).
  { now rewrite (mencoder_line_handler_percent _ _ "10") by (vm_compute; reflexivity). }
  assert (H2 : forall w', mencoder_line_handler command pos_line_10_again (PStr "10") w'
               = (Return (PStr "10"), w')).
  { intros w'. apply mencoder_same_percent_suppressed; vm_compute; reflexivity. }
  assert (H3 : forall w', mencoder_line_handler command pos_line_25 (PStr "10") w'
               = (Return (PStr "25"), snd (process_handler 10 25 w'))).
  { intros w'.
    now rewrite (mencoder_line_handler_percent _ _ "25") by (vm_compute; reflexivity). }
  cbv zeta.
  cbn [popen_loop].
  change (len pos_line_10 <? 1) with false.
  change (len pos_line_10_again <? 1) with false.
  change (len pos_line_25 <? 1) with false.
  cbv iota. unfold bind at 1. rewrite H1.
  unfold bind at 1. rewrite H2.
  unfold bind at 1. rewrite H3.
  rewrite ?H1, ?H2, ?H3.
  repeat split; simpl; now rewrite <- ?app_assoc.
Qed.

(** The first comparison is between the integer [0] and a text: a first
    line at 0 percent is reported as [process_handler(0, 0)]. *)
Lemma mencoder_first_line_zero (command : string) (w : World) :
  let run := mencoder_line_handler command pos_line_0 (PInt 0) w in
  fst run = Return (PStr "0") /\ progress (snd run) = progress w ++ [(0, 0)].
Proof.
  cbv zeta.
  now rewrite (mencoder_line_handler_percent _ _ "0") by (vm_compute; reflexivity).
Qed.

(** The command of a converter of the mencoder family. *)
Lemma get_encode_command_mencoder (self : Converter) (input_file output_file : string)
  (w : World) :
  cls self = Mencoder ->
  get_encode_command self input_file output_file w
  = (Return (mencoder_command self input_file output_file),
     set_stdout (stdout w ++ [mencoder_command self input_file output_file]) w).
Proof. intros Hcls. unfold get_encode_command. now rewrite Hcls. Qed.

(** The tracker of mencoder is the loop on the reads of the encode
    command, started on the integer 0. *)
Lemma mencoder_parse_run (self : Converter) (input_file output_file : string)
  (w : World) :
  cls self = Mencoder ->
  mencoder_parse_converter_output self input_file output_file w
  = match popen_loop
            (Some (mencoder_line_handler (mencoder_command self input_file output_file)))
            default_miss_count
            (fst (run_command w (mencoder_command self input_file output_file) (files w)))
            0 (PInt 0)
            (after_command (mencoder_command self input_file output_file)
               (set_stdout
                  (stdout w ++ [mencoder_command self input_file output_file]) w))
    with
    | (Return _, w') => (Return true, w')
    | (Raise e, w') => (Raise e, w')
    end.
Proof.
  intros Hcls. unfold mencoder_parse_converter_output.
  unfold bind at 1. rewrite get_encode_command_mencoder by assumption.
  unfold bind. rewrite popen_as_loop. cbn [run_command files set_stdout].
  now destruct (popen_loop _ _ _ _ _ _) as [[percent|e] w'].
Qed.

(** C6: the tracker of a converter of the mencoder family, on an encoder
    that prints the three lines at 10, 10 and 25 percent, returns having
    called [process_handler(0, 10)] and [process_handler(10, 25)], in
    this order, and nothing else.  After the first line a percent is
    compared as text with the last one: the same text produces no call,
    another one produces the call with the last and the new percent.
    The first line is compared with the integer 0, which no text equals:
    it always produces a call, and on an encoder whose first line is at
    0 percent the tracker calls [process_handler(0, 0)]. *)
Theorem mencoder_tracker_events (self : Converter) (input_file output_file : string)
  (w : World) :
  cls self = Mencoder ->
  let command := mencoder_command self input_file output_file in
  let reads := fst (run_command w command (files w)) in
  let run := mencoder_parse_converter_output self input_file output_file w in
  (reads = [pos_line_10; pos_line_10_again; pos_line_25] ->
   fst run = Return true
   /\ progress (snd run) = progress w ++ [(0, 10); (10, 25)])
  /\ (reads = [pos_line_0] ->
      fst run = Return true /\ progress (snd run) = progress w ++ [(0, 0)])
  /\ (forall (line curr prev : string) (old new : Z) (w' : World),
        contains error_signature line = false ->
        Re.match_ re_pos line = Some [curr] ->
        PyStr.int_of_str curr = Return new ->
        mencoder_line_handler command line (PStr curr) w' = (Return (PStr curr), w')
        /\ (prev <> curr -> PyStr.int_of_str prev = Return old ->
            fst (mencoder_line_handler command line (PStr prev) w')
            = Return (PStr curr)
            /\ progress (snd (mencoder_line_handler command line (PStr prev) w'))
               = progress w' ++ [(old, new)])
        /\ fst (mencoder_line_handler command line (PInt 0) w') = Return (PStr curr)
        /\ progress (snd (mencoder_line_handler command line (PInt 0) w'))
           = progress w' ++ [(0, new)]).
Proof.
  intros Hcls. cbv zeta. split; [|split].
  - intros Hreads. rewrite mencoder_parse_run, Hreads by assumption.
    destruct (mencoder_progress_events
                (mencoder_command self input_file output_file)
                (after_command (mencoder_command self input_file output_file)
                   (set_stdout
                      (stdout w ++ [mencoder_command self input_file output_file]) w)))
      as (Hfst & Hprogress & _).
    cbv zeta in Hfst, Hprogress.
    destruct (popen_loop _ _ _ _ _ _) as [[percent|e] w']; [|discriminate].
    split; [reflexivity | exact Hprogress].
  - intros Hreads. rewrite mencoder_parse_run, Hreads by assumption.
    cbn [popen_loop]. change (len pos_line_0 <? 1) with false. cbv iota.
    unfold bind.
    rewrite (mencoder_line_handler_percent _ _ "0") by (vm_compute; reflexivity).
    split; reflexivity.
  - intros line curr prev old new w' Herr Hmatch Hnew. split; [|split].
    + now apply mencoder_same_percent_suppressed.
    + intros Hne Hold.
      rewrite (mencoder_line_handler_percent _ _ curr) by assumption.
      cbn [pval_ne int_of_pval].
      replace (String.eqb prev curr) with false
        by (symmetry; now apply String.eqb_neq).
      cbn [negb]. rewrite Hold, Hnew. split; reflexivity.
    + rewrite (mencoder_line_handler_percent _ _ curr) by assumption.
      cbn [pval_ne int_of_pval]. rewrite Hnew. split; reflexivity.
Qed.

(** ** The progress tracker of ffmpeg (C2) *)

Lemma re_progress_first (line : string) (m : list string) :
  Re.match_ re_progress line = Some m -> exists rest, line = String "t" rest.
Proof.
  unfold Re.match_, re_progress, seq_of. cbn [fold_right Re.text Re.run].
  destruct line as [|c rest]; [discriminate|].
  cbn [Re.accepts].
  destruct (Ascii.eqb_spec c "t"); [subst; eauto | discriminate].
Qed.

Lemma re_duration_first (line : string) (m : list string) :
  Re.match_ re_duration line = Some m -> exists rest, line = String "D" rest.
Proof.
  unfold Re.match_, re_duration, seq_of. cbn [fold_right Re.text Re.run Nat.eqb].
  destruct line as [|c rest]; [discriminate|].
  cbn [Re.accepts].
  destruct (Ascii.eqb_spec c "D"); [subst; eauto | discriminate].
Qed.

(** No line matches both patterns. *)
Lemma re_progress_not_duration (line : string) (m : list string) :
  Re.match_ re_progress line = Some m -> Re.match_ re_duration line = None.
Proof.
  intros Hp. destruct (Re.match_ re_duration line) as [m'|] eqn:Hd; [|reflexivity].
  apply re_progress_first in Hp as [rest ->].
  apply re_duration_first in Hd as [rest' Hd]. discriminate.
Qed.

(** On every line the handler either returns with the dictionary and the
    world as they were, or raises with the world as it was: a line that
    matches the progress pattern finds [duration] unbound. *)
Lemma ffmpeg_line_handler_inert (line : string) (percent : ffmpeg_percent)
  (w : World) :
  ffmpeg_line_handler line percent w = (Return percent, w)
  \/ exists e, ffmpeg_line_handler line percent w = (Raise e, w).
Proof.
  unfold ffmpeg_line_handler.
  destruct (Re.match_ re_progress line) as [m|] eqn:Hp.
  - rewrite (re_progress_not_duration _ _ Hp). right. eexists. reflexivity.
  - destruct (Re.match_ re_duration line) as [m|].
    + unfold bind, lift, ret. destruct (time2sec m) as [d|e]; eauto.
    + left. reflexivity.
Qed.

Lemma ffmpeg_loop_inert (miss_count : Z) (reads : list string) (eof_count : Z)
  (percent : ffmpeg_percent) (w : World) :
  popen_loop (Some ffmpeg_line_handler) miss_count reads eof_count percent w
    = (Return percent, w)
  \/ exists e,
       popen_loop (Some ffmpeg_line_handler) miss_count reads eof_count percent w
       = (Raise e, w).
Proof.
  revert eof_count. induction reads as [|line rest IH]; intros eof_count; simpl.
  - now left.
  - destruct (len line <? 1).
    + destruct (eof_count >? miss_count); [now left | apply IH].
    + unfold bind.
      destruct (ffmpeg_line_handler_inert line percent w) as [-> | [e ->]].
      * apply IH.
      * right. eauto.
Qed.

(** C2 on the code: the tracker of ffmpeg never calls [process_handler],
    whatever the stream; in particular a duration line of 100 seconds
    followed by a time line at 50 seconds is read to the end without a
    call, where the claim has the event (0, 50).  The two patterns are
    written with the letter [d] for a digit: the lines they do match,
    made of letters, raise [ValueError] in [time2sec] and
    [UnboundLocalError] at [if duration]. *)
Theorem ffmpeg_tracker_reports_nothing (reads : list string)
  (percent : ffmpeg_percent) (w : World) :
  progress (snd (popen_loop (Some ffmpeg_line_handler) default_miss_count
                   reads 0 percent w)) = progress w
  /\ popen_loop (Some ffmpeg_line_handler) default_miss_count
       [duration_line_100; time_line_50] 0 (mkPercent 0 0) w
     = (Return (mkPercent 0 0), w)
  /\ Re.match_ re_duration duration_line_100 = None
  /\ Re.match_ re_progress time_line_50 = None
  /\ ffmpeg_line_handler duration_line_letters (mkPercent 0 0) w
     = (Raise ValueError, w)
  /\ ffmpeg_line_handler time_line_letters (mkPercent 0 0) w
     = (Raise UnboundLocalError, w).
Proof.
  split.
  - destruct (ffmpeg_loop_inert default_miss_count reads 0 percent w)
      as [-> | [e ->]]; reflexivity.
  - repeat split.
Qed.

(** ** The snapshot of one position (C5) *)

Lemma popen_no_handler (command : string) (w : World) :
  popen command None default_miss_count tt w = (Return tt, after_command command w).
Proof.
  unfold popen, bind, subprocess_Popen, after_command.
  destruct (run_command w command (files w)) as [reads files'].
  now rewrite popen_loop_no_handler.
Qed.

Lemma require_one_utility {A} (name : string) (function : M A) (w : World) :
  require_utility [name] function w =
    if decide (name ∈ utilities w) then function w
    else (Raise (UtilityNotFound ("Utility " +++ name +++ " not found")), w).
Proof.
  unfold require_utility, for_each, bind, check_utility, ret.
  now destruct (decide (name ∈ utilities w)).
Qed.

(** C5, as the code has it: once ffmpeg has run, a snapshot file of size
    zero is removed and the call returns false, a snapshot file that is
    not empty makes it return true, and without a snapshot file the size
    query raises [OSError], which the call lets through. *)
Theorem make_snapshot_outcome (video_filename snapshot_filename : string)
  (position : Z) (w : World) :
  let w1 := after_command
              (make_snapshot_command video_filename snapshot_filename position) w in
  make_snapshot video_filename snapshot_filename position w =
    if decide ("ffmpeg" ∈ utilities w) then
      match files w1 !! snapshot_filename with
      | Some size =>
          if 0 <? Z.of_N size then (Return true, w1)
          else (Return false, set_files (delete snapshot_filename (files w1)) w1)
      | None => (Raise OSError, w1)
      end
    else (Raise (UtilityNotFound "Utility ffmpeg not found"), w).
Proof.
  cbv zeta. unfold make_snapshot. rewrite require_one_utility.
  destruct (decide ("ffmpeg" ∈ utilities w)); [|reflexivity].
  unfold bind at 1. rewrite popen_no_handler.
  unfold bind, os_path_getsize, os_remove, ret.
  set (w1 := after_command _ w).
  destruct (files w1 !! snapshot_filename) as [size|] eqn:E; [|reflexivity].
  destruct (0 <? Z.of_N size); cbn [negb]; [reflexivity|].
  now rewrite E.
Qed.

(** With ffmpeg at hand and a file left at the path, the call returns. *)
Lemma make_snapshot_with_file (video_filename snapshot_filename : string)
  (position : Z) (w : World) (size : N) :
  let w1 := after_command
              (make_snapshot_command video_filename snapshot_filename position) w in
  "ffmpeg" ∈ utilities w ->
  files w1 !! snapshot_filename = Some size ->
  make_snapshot video_filename snapshot_filename position w =
    (Return (0 <? Z.of_N size),
     if 0 <? Z.of_N size then w1
     else set_files (delete snapshot_filename (files w1)) w1).
Proof.
  cbv zeta. intros Hu Hsize.
  unfold make_snapshot. rewrite require_one_utility.
  destruct (decide ("ffmpeg" ∈ utilities w)); [|contradiction].
  unfold bind at 1. rewrite popen_no_handler.
  unfold bind, os_path_getsize, os_remove, ret. rewrite Hsize.
  destruct (0 <? Z.of_N size); cbn [negb]; [reflexivity|].
  now rewrite Hsize.
Qed.

(** ** The plan of the snapshots (C8) *)








(** ** The dictionaries of ConvertResult (C9) *)

(** C9: two instances that were not given dictionaries of their own read
    [snapshots] and [metadata] from the class, so they name the same two
    dictionaries: an entry put into the snapshots of the first is found in
    the snapshots of the second, and in those of an instance that has just
    been constructed. *)
Theorem ConvertResult_snapshots_shared (r1 r2 : ConvertResult) (w : World)
  (d : gmap Z string) (position : Z) (thumb_filename : string) :
  own_snapshots r1 = None -> own_snapshots r2 = None ->
  own_metadata r1 = None -> own_metadata r2 = None ->
  heap w !! ConvertResult_snapshots = Some (SnapshotDict d) ->
  snapshots r1 = snapshots r2
  /\ metadata r1 = metadata r2
  /\ exists w',
       snapshots_setitem (snapshots r1) position thumb_filename w = (Return tt, w')
       /\ snapshots_get (snapshots r2) position w' = Some thumb_filename
       /\ snapshots_get (snapshots new_ConvertResult) position w'
          = Some thumb_filename.
Proof.
  intros H1 H2 H3 H4 Hd.
  unfold snapshots, metadata. rewrite H1, H2, H3, H4. cbn [default].
  repeat split.
  unfold snapshots_setitem, snapshots_get. rewrite Hd.
  eexists. split; [reflexivity|].
  cbn [heap set_heap new_ConvertResult own_snapshots default].
  rewrite lookup_insert_eq. split; apply lookup_insert_eq.
Qed.

(** ** Inversion of the monad *)

Lemma bind_return {A B} (m : M A) (k : A -> M B) (w w' : World) (b : B) :
  bind m k w = (Return b, w') ->
  exists a w1, m w = (Return a, w1) /\ k a w1 = (Return b, w').
Proof.
  unfold bind. destruct (m w) as [[a|e] w1]; [eauto | discriminate].
Qed.

Lemma ret_return {A} (a b : A) (w w' : World) :
  ret a w = (Return b, w') -> a = b /\ w = w'.
Proof. unfold ret. intros H. now inversion H. Qed.

(** ** The result of encode and the stages of convert (C10) *)

(** [encode] has one [return], of [True]. *)
Lemma encode_returns_true (self : Converter) (input_file output_file : string)
  (w w' : World) (b : bool) :
  encode self input_file output_file w = (Return b, w') -> b = true.
Proof.
  unfold encode. intros H.
  apply bind_return in H as (_ & w1 & _ & H).
  apply bind_return in H as (command & w2 & _ & H).
  apply bind_return in H as (_ & w3 & _ & H).
  now apply ret_return in H as [<- _].
Qed.

(** The instances that [convert] returns have no dictionaries of their
    own. *)
Lemma convert_result_shares (self : Converter) (input_file output_file : string)
  (w w' : World) (r : ConvertResult) :
  convert self input_file output_file w = (Return r, w') ->
  own_snapshots r = None /\ own_metadata r = None.
Proof.
  unfold convert. intros H.
  apply bind_return in H as (info & w1 & _ & H).
  apply bind_return in H as (ok & w2 & _ & H).
  destruct ok; cbn in H.
  - apply bind_return in H as (_ & w3 & _ & H).
    apply bind_return in H as (_ & w4 & _ & H).
    now apply ret_return in H as [<- _].
  - now apply ret_return in H as [<- _].
Qed.

(** C10: [encode] never returns false, so [convert] is the four stages
    in a row, the snapshot stage and the injection stage starting whenever
    the encoder returns; and whenever [convert] returns, the result is
    marked converted and names the output file, the probe and the encoder
    have returned, the encoder with true, and the snapshot stage and the
    injection stage have both run to their end. *)
Theorem convert_always_converted (self : Converter) (input_file output_file : string)
  (w w' : World) (r : ConvertResult) :
  convert self input_file output_file w = (Return r, w') ->
  (forall w0, fst (encode self input_file output_file w0) <> Return false)
  /\ (forall w0, convert self input_file output_file w0
                 = convert_stages self input_file output_file w0)
  /\ converted r = true
  /\ movie_converted r = output_file
  /\ exists info w1 w2 w3,
       get_movie_info input_file w = (Return info, w1)
       /\ encode self input_file output_file w1 = (Return true, w2)
       /\ BaseConverter_make_snapshot r 10 w2 = (Return tt, w3)
       /\ BaseConverter_inject_metadata output_file w3 = (Return tt, w').
Proof.
  intros H. split; [|split].
  { intros w0 Hf.
    destruct (encode self input_file output_file w0) as [o w1] eqn:E.
    cbn in Hf. subst o. now apply encode_returns_true in E. }
  { intros w0. unfold convert, convert_stages, bind.
    destruct (get_movie_info input_file w0) as [[info|e] w1]; [|reflexivity].
    destruct (encode self input_file output_file w1) as [[ok|e] w2] eqn:E;
      [|reflexivity].
    apply encode_returns_true in E as ->. reflexivity. }
  unfold convert in H.
  apply bind_return in H as (info & w1 & Hinfo & H).
  apply bind_return in H as (ok & w2 & Henc & H).
  pose proof (encode_returns_true _ _ _ _ _ _ Henc) as ->.
  cbn in H.
  apply bind_return in H as ([] & w3 & Hsnap & H).
  apply bind_return in H as ([] & w4 & Hinj & H).
  apply ret_return in H as [<- <-].
  repeat split. exists info, w1, w2, w3. auto.
Qed.

End Proofs.

(** * The program on concrete inputs *)

(** C5, as stated, fails: when ffmpeg leaves no file at all, the call does
    not return false; the size query raises [OSError]. *)
Lemma make_snapshot_absent_file_raises :
  fst (make_snapshot "movie.flv" "movie.flv_10.jpeg" 10 silent_world)
  = Raise OSError
  /\ fst (make_snapshot "movie.flv" "movie.flv_10.jpeg" 10 silent_world)
     <> Return false.
Proof. vm_compute. split; [reflexivity | discriminate]. Qed.




(** Witness of C6: an encoder whose only line is at 0 percent. *)
Lemma mencoder_tracker_events_demo :
  fst (mencoder_parse_converter_output demo_converter "in.avi" "out.flv"
         (printing_world [pos_line_0])) = Return true
  /\ progress (snd (mencoder_parse_converter_output demo_converter "in.avi" "out.flv"
                      (printing_world [pos_line_0])))
     = progress (printing_world [pos_line_0]) ++ [(0, 0)].
Proof.
  pose proof (mencoder_tracker_events demo_converter "in.avi" "out.flv"
                (printing_world [pos_line_0]) eq_refl) as H.
  cbv zeta in H. destruct H as (_ & H & _). apply H. reflexivity.
Defined.



(** Witness of C9: an entry put through the demonstration result is seen
    through a new instance. *)
Lemma ConvertResult_shared_demo :
  exists w',
    snapshots_setitem (snapshots demo_result) 50 "out.flv_50.jpeg" demo_world
    = (Return tt, w')
    /\ snapshots_get (snapshots new_ConvertResult) 50 w' = Some "out.flv_50.jpeg".
Proof.
  destruct (ConvertResult_snapshots_shared demo_result new_ConvertResult demo_world
              ∅ 50 "out.flv_50.jpeg")
    as (_ & _ & w' & H1 & H2 & _); try reflexivity.
  exists w'. split; assumption.
Defined.

(** Witness of C10: the conversion of the demonstration world returns. *)
Lemma convert_demo :
  exists r w',
    convert demo_converter "in.avi" "out.flv" demo_world = (Return r, w')
    /\ converted r = true
    /\ movie_converted r = "out.flv".
Proof.
  assert (Hreturns : match fst (convert demo_converter "in.avi" "out.flv" demo_world) with
                     | Return _ => True
                     | Raise _ => False
                     end) by (vm_compute; exact I).
  revert Hreturns.
  destruct (convert demo_converter "in.avi" "out.flv" demo_world)
    as [[r|e] w'] eqn:H; cbn [fst]; intros Hreturns; [|contradiction].
  exists r, w'. split; [reflexivity|].
  destruct (convert_always_converted _ _ _ _ _ _ H) as (_ & _ & Hc & Hm & _).
  split; assumption.
Defined.

(** The whole conversion in the demonstration world: the commands started,
    the progress reported, the snapshot at second 100 left out, and the
    snapshot dictionary as a new instance sees it afterwards. *)
Lemma convert_demo_run :
  let w' := snd (convert demo_converter "in.avi" "out.flv" demo_world) in
  length (launched w') = 16%nat
  /\ progress w' = [(0, 10); (10, 25)]
  /\ snapshots_get (snapshots new_ConvertResult) 50 w' = Some "out.flv_50.jpeg"
  /\ snapshots_get (snapshots new_ConvertResult) 100 w' = None
  /\ files w' !! "out.flv_100.jpeg" = None
  /\ files w' !! "out.flv" = Some 4160%N.
Proof. vm_compute. repeat split. Qed.

(** [encode] returns true also when the encoder prints nothing and writes
    no file. *)
Lemma encode_true_without_output :
  fst (encode demo_converter "in.avi" "out.flv" silent_world) = Return true
  /\ files (snd (encode demo_converter "in.avi" "out.flv" silent_world))
       !! "out.flv" = None.
Proof. vm_compute. split; reflexivity. Qed.

(** * Further properties of the module *)

Section MoreProofs.

Context {FM : PyFloat}.

(** ** require_utility *)

(** X1: the decorated function runs when every required utility can be
    started; otherwise the call raises [UtilityNotFound] for the first
    one that cannot, in the order of the list, with the world untouched
    and the function not run. *)
Theorem require_utility_first_missing {A} (requirements : list string)
  (function : M A) (w : World) :
  require_utility requirements function w =
    match first_missing requirements w with
    | None => function w
    | Some r => (Raise (UtilityNotFound ("Utility " +++ r +++ " not found")), w)
    end.
Proof.
  unfold require_utility.
  induction requirements as [|r rest IH]; [reflexivity|].
  cbn [for_each first_missing]. unfold bind in *. unfold check_utility at 1.
  destruct (decide (r ∈ utilities w)); [apply IH | reflexivity].
Qed.

(** ** popen: which lines reach the handler *)

Lemma longest_blank_run_ge (cur : nat) (reads : list string) :
  (cur <= longest_blank_run cur reads)%nat.
Proof.
  revert cur. induction reads as [|line rest IH]; intros cur; simpl; [lia|].
  destruct (blank_read line); [specialize (IH (S cur)) | ]; lia.
Qed.

Lemma popen_loop_handles_lines {St} (handler : string -> St -> M St)
  (miss_count : Z) (reads : list string) (eof_count : nat) (st : St) (w : World) :
  Z.of_nat (longest_blank_run eof_count reads) <= miss_count + 1 ->
  popen_loop (Some handler) miss_count reads (Z.of_nat eof_count) st w
  = handle_all handler (List.filter (fun line => negb (blank_read line)) reads) st w.
Proof.
  revert eof_count st w.
  induction reads as [|line rest IH]; intros eof_count st w Hrun; [reflexivity|].
  cbn [popen_loop longest_blank_run List.filter] in *.
  unfold blank_read in *. destruct (len line <? 1) eqn:E; cbn [negb].
  - pose proof (longest_blank_run_ge (S eof_count) rest).
    replace (Z.of_nat eof_count >? miss_count) with false by lia.
    replace (Z.of_nat eof_count + 1) with (Z.of_nat (S eof_count)) by lia.
    now rewrite IH by assumption.
  - cbn [handle_all]. unfold bind.
    destruct (handler line st w) as [[st'|e] w']; [|reflexivity].
    apply (IH 0%nat). lia.
Qed.

(** X2: when the stream has no run of more than [miss_count + 1] blank
    reads, [popen] gives the handler exactly the reads that are not
    blank, in their order, each with the state the one before left, and
    stops at the first exception of the handler. *)
Theorem popen_handles_every_line {St} (handler : string -> St -> M St)
  (miss_count : Z) (command : string) (st : St) (w : World) :
  Z.of_nat (longest_blank_run 0 (fst (run_command w command (files w))))
    <= miss_count + 1 ->
  popen command (Some handler) miss_count st w
  = handle_all handler
      (List.filter (fun line => negb (blank_read line))
              (fst (run_command w command (files w))))
      st (after_command command w).
Proof.
  intros Hrun. unfold popen, bind, subprocess_Popen, after_command.
  destruct (run_command w command (files w)) as [reads files'].
  cbn [fst snd] in *.
  now apply (popen_loop_handles_lines handler miss_count reads 0%nat).
Qed.

(** ** get_video_metadata *)

Lemma metadata_handler_skips (line : string) (metadata : gmap string mval)
  (w : World) :
  startswith "ID_" line = false ->
  metadata_line_handler line metadata w = (Return metadata, w).
Proof. intros H. unfold metadata_line_handler. now rewrite H. Qed.

Lemma metadata_loop_skips (miss_count : Z) (reads : list string) (eof_count : Z)
  (metadata : gmap string mval) (w : World) :
  Forall (fun line => startswith "ID_" line = false) reads ->
  popen_loop (Some metadata_line_handler) miss_count reads eof_count metadata w
  = (Return metadata, w).
Proof.
  intros Hall. revert eof_count.
  induction Hall as [|line rest Hline _ IH]; intros eof_count; [reflexivity|].
  cbn [popen_loop]. destruct (len line <? 1).
  - destruct (eof_count >? miss_count); [reflexivity | apply IH].
  - unfold bind. rewrite metadata_handler_skips by assumption. apply IH.
Qed.


(** X3: when mplayer can be started and none of the lines it prints
    starts with [ID_], the probe raises [WrongVideoFormat], after having
    run the one probe command. *)
Theorem get_video_metadata_no_fields (filename : string) (w : World) :
  "mplayer" ∈ utilities w ->
  Forall (fun line => startswith "ID_" line = false)
         (fst (run_command w (get_video_metadata_command filename) (files w))) ->
  get_video_metadata filename w
  = (Raise (WrongVideoFormat "Can't parse metadata, maybe wrong format"),
     after_command (get_video_metadata_command filename) w).
Proof.
  intros Hu Hall. unfold get_video_metadata. rewrite require_one_utility.
  destruct (decide ("mplayer" ∈ utilities w)); [|contradiction].
  fold (get_video_metadata_command filename).
  unfold bind. rewrite popen_as_loop.
  now rewrite metadata_loop_skips.
Qed.


(** *** Integers and their decimal text *)

Lemma digits_value_of_uint_acc (d : Decimal.uint) (acc : positive) :
  PyStr.digits_value (Zpos acc) (NilEmpty.string_of_uint d)
  = Some (Zpos (Pos.of_uint_acc d acc)).
Proof.
  revert acc. induction d; intros acc; cbn [NilEmpty.string_of_uint Pos.of_uint_acc];
    [reflexivity | cbn [PyStr.digits_value]; rewrite <- IHd ..].
  all: match goal with
       | |- (if ?b then _ else _) = _ =>
           let v := eval vm_compute in b in change b with v
       end; cbv iota; f_equal;
       match goal with
       | |- context [N_of_ascii ?c] =>
           let v := eval vm_compute in (N_of_ascii c) in
           change (N_of_ascii c) with v
       end; lia.
Qed.

Lemma digits_value_of_uint (d : Decimal.uint) :
  PyStr.digits_value 0 (NilEmpty.string_of_uint d)
  = Some (Z.of_N (Pos.of_uint d)).
Proof.
  induction d; cbn [NilEmpty.string_of_uint Pos.of_uint PyStr.digits_value];
    [reflexivity | ..].
  all: match goal with
       | |- (if ?b then PyStr.digits_value ?a _ else _) = _ =>
           let v := eval vm_compute in b in change b with v;
           let u := eval vm_compute in a in change a with u
       end; cbv iota.
  - exact IHd.
  - apply digits_value_of_uint_acc.
  - apply digits_value_of_uint_acc.
  - apply digits_value_of_uint_acc.
  - apply digits_value_of_uint_acc.
  - apply digits_value_of_uint_acc.
  - apply digits_value_of_uint_acc.
  - apply digits_value_of_uint_acc.
  - apply digits_value_of_uint_acc.
  - apply digits_value_of_uint_acc.
Qed.

Lemma string_of_uint_no_whitespace (d : Decimal.uint) :
  no_whitespace (NilEmpty.string_of_uint d) = true.
Proof. induction d; simpl; auto. Qed.

Lemma lstrip_no_whitespace (s : string) :
  no_whitespace s = true -> PyStr.lstrip s = s.
Proof.
  destruct s as [|c s]; [reflexivity|]. simpl.
  destruct (PyStr.is_whitespace c); [discriminate | reflexivity].
Qed.

Lemma rstrip_no_whitespace (s : string) :
  no_whitespace s = true -> PyStr.rstrip s = s.
Proof.
  induction s as [|c s IH]; [reflexivity|]. simpl.
  destruct (PyStr.is_whitespace c) eqn:E; [discriminate|]. simpl. intros H.
  rewrite IH by assumption. now destruct s.
Qed.

Lemma strip_no_whitespace (s : string) :
  no_whitespace s = true -> PyStr.strip s = s.
Proof.
  intros H. unfold PyStr.strip.
  now rewrite lstrip_no_whitespace, rstrip_no_whitespace.
Qed.

(** [int(str(n)) == n]. *)
Lemma int_of_str_of_int (n : Z) : PyStr.int_of_str (str_of_int n) = Return n.
Proof.
  unfold PyStr.int_of_str, str_of_int.
  destruct n as [|p|p]; [reflexivity| |].
  - cbn [Z.to_int NilEmpty.string_of_int].
    rewrite strip_no_whitespace by apply string_of_uint_no_whitespace.
    pose proof (Unsigned.to_uint_nonnil p) as Hn.
    pose proof (Unsigned.of_to p) as Hp.
    pose proof (digits_value_of_uint (Pos.to_uint p)) as Hd.
    rewrite Hp in Hd.
    destruct (Pos.to_uint p); try contradiction;
      cbn [NilEmpty.string_of_uint PyStr.unsigned_value] in *; now rewrite Hd.
  - cbn [Z.to_int NilEmpty.string_of_int].
    rewrite strip_no_whitespace
      by (simpl; apply string_of_uint_no_whitespace).
    pose proof (Unsigned.to_uint_nonnil p) as Hn.
    pose proof (Unsigned.of_to p) as Hp.
    pose proof (digits_value_of_uint (Pos.to_uint p)) as Hd.
    rewrite Hp in Hd. unfold PyStr.unsigned_value.
    destruct (Pos.to_uint p); try contradiction;
      cbn [NilEmpty.string_of_uint] in *; now rewrite Hd.
Qed.


(** *** One line of the probe *)

Lemma no_whitespace_app (a b : string) :
  no_whitespace (a +++ b) = no_whitespace a && no_whitespace b.
Proof. induction a as [|c a IH]; simpl; [reflexivity|]. now rewrite IH, andb_assoc. Qed.

Lemma rstrip_trailing_newline (s : string) :
  no_whitespace s = true -> PyStr.rstrip (s +++ String newline "") = s.
Proof.
  induction s as [|c s IH]; [reflexivity|]. simpl.
  destruct (PyStr.is_whitespace c) eqn:E; [discriminate|]. simpl. intros H.
  rewrite IH by assumption. now destruct s.
Qed.

Lemma split_no_equals (m : nat) (s : string) :
  no_equals s = true -> PyStr.split "=" m s = [s].
Proof.
  induction s as [|c s IH]; [reflexivity|]. simpl.
  destruct (Ascii.eqb c "=") eqn:E; [discriminate|]. simpl. intros H.
  destruct m; [reflexivity|]. now rewrite IH.
Qed.

Lemma split_at_equals (m : nat) (a b : string) :
  no_equals a = true ->
  PyStr.split "=" (S m) (a +++ String "=" b) = a :: PyStr.split "=" m b.
Proof.
  induction a as [|c a IH]; [reflexivity|]. simpl.
  destruct (Ascii.eqb c "=") eqn:E; [discriminate|]. simpl. intros H.
  now rewrite IH.
Qed.

Lemma str_of_int_no_whitespace (n : Z) : no_whitespace (str_of_int n) = true.
Proof.
  unfold str_of_int. destruct n; simpl; auto using string_of_uint_no_whitespace.
Qed.

Lemma string_of_uint_no_equals (d : Decimal.uint) :
  no_equals (NilEmpty.string_of_uint d) = true.
Proof. induction d; simpl; auto. Qed.

Lemma str_of_int_no_equals (n : Z) : no_equals (str_of_int n) = true.
Proof.
  unfold str_of_int. destruct n; simpl; auto using string_of_uint_no_equals.
Qed.

Lemma strip_marker_line (token value : string) :
  no_whitespace token = true -> token <> "" -> no_whitespace value = true ->
  PyStr.strip (token +++ "=" +++ value +++ String newline "")
  = token +++ "=" +++ value.
Proof.
  intros Ht Hne Hv. unfold PyStr.strip.
  assert (Hl : PyStr.lstrip (token +++ "=" +++ value +++ String newline "")
               = token +++ "=" +++ value +++ String newline "").
  { destruct token as [|c t]; [congruence|]. simpl in *.
    destruct (PyStr.is_whitespace c); [discriminate | reflexivity]. }
  rewrite Hl.
  replace (token +++ "=" +++ value +++ String newline "")
    with ((token +++ "=" +++ value) +++ String newline "")
    by now rewrite !append_assoc.
  apply rstrip_trailing_newline.
  rewrite !no_whitespace_app, Ht, Hv. reflexivity.
Qed.

Lemma split_marker_line (token value : string) :
  no_equals token = true -> no_equals value = true ->
  PyStr.split "=" 2 (token +++ "=" +++ value) = [token; value].
Proof.
  intros Ht Hv. change ("=" +++ value) with (String "=" value).
  rewrite split_at_equals by assumption. now rewrite split_no_equals.
Qed.

(** Decides [startswith] on a line whose first characters are known. *)
Ltac decide_startswith :=
  repeat match goal with
         | |- context [startswith ?t ?l] =>
             let v := eval vm_compute in (startswith t l) in
             change (startswith t l) with v
         end.

Lemma metadata_rows_int_line (token field : string) (n : Z)
  (metadata : gmap string mval) :
  In (token, field) int_fields ->
  startswith "ID_" (token +++ "=" +++ str_of_int n +++ String newline "") = true
  /\ metadata_rows (token +++ "=" +++ str_of_int n +++ String newline "")
       infomap metadata
     = Return (<[field := MInt n]> metadata).
Proof.
  intros Hin.
  assert (Hparts : no_whitespace token = true -> token <> "" ->
                   no_equals token = true ->
            PyStr.split "=" 2
              (PyStr.strip (token +++ "=" +++ str_of_int n +++ String newline ""))
            = [token; str_of_int n]).
  { intros Hw Hne He.
    rewrite strip_marker_line by auto using str_of_int_no_whitespace.
    apply split_marker_line; auto using str_of_int_no_equals. }
  unfold infomap.
  cbn [In int_fields] in Hin.
  repeat (destruct Hin as [Hin|Hin]; [inversion Hin; subst token field; clear Hin|]);
    [..|contradiction].
  all: split; [reflexivity|];
       cbn [metadata_rows metadata_row];
       decide_startswith; cbv iota;
       rewrite Hparts by (reflexivity || discriminate);
       cbn [apply_filters apply_filter]; rewrite int_of_str_of_int; reflexivity.
Qed.

(** X4: for each of the nine integer rows of the table and every integer
    [n], the line made of the marker, an equals sign, the decimal text of
    [n] and a newline stores [n] under the key of the row, and changes
    nothing else. *)
Theorem metadata_int_field (token field : string) (n : Z)
  (metadata : gmap string mval) (w : World) :
  In (token, field) int_fields ->
  metadata_line_handler (token +++ "=" +++ str_of_int n +++ String newline "")
    metadata w
  = (Return (<[field := MInt n]> metadata), w).
Proof.
  intros Hin.
  destruct (metadata_rows_int_line token field n metadata Hin) as [Hid Hrows].
  unfold metadata_line_handler, lift. now rewrite Hid, Hrows.
Qed.

Lemma rstrip_keeps (s : string) (c : ascii) (t : string) :
  PyStr.is_whitespace c = false ->
  PyStr.rstrip (s +++ String c t) = s +++ String c (PyStr.rstrip t).
Proof.
  intros Hc. induction s as [|x s IH]; simpl.
  - rewrite Hc. now destruct (PyStr.rstrip t).
  - rewrite IH. now destruct s.
Qed.

Lemma split_zero (sep : ascii) (s : string) : PyStr.split sep 0 s = [s].
Proof. now destruct s. Qed.

Lemma split_once_two_parts (a b : string) :
  exists x y, PyStr.split "=" 1 (a +++ String "=" b) = [x; y].
Proof.
  induction a as [|c a (x & y & IH)]; simpl.
  - rewrite split_zero. eauto.
  - destruct (Ascii.eqb c "=").
    + rewrite split_zero. eauto.
    + rewrite IH. eauto.
Qed.

(** X6: a file name line whose value holds an equals sign makes the
    handler raise [ValueError], whatever the rest of the line and the
    fields read so far: the line splits into three parts, one too many
    for [key, val]. *)
Theorem metadata_filename_with_equals (a b : string)
  (metadata : gmap string mval) (w : World) :
  metadata_line_handler ("ID_FILENAME=" +++ a +++ "=" +++ b) metadata w
  = (Raise ValueError, w).
Proof.
  assert (Hparts : exists x y,
            PyStr.split "=" 2 (PyStr.strip ("ID_FILENAME=" +++ a +++ "=" +++ b))
            = ["ID_FILENAME"; x; y]).
  { unfold PyStr.strip.
    change (PyStr.lstrip ("ID_FILENAME=" +++ a +++ "=" +++ b))
      with ("ID_FILENAME=" +++ a +++ "=" +++ b).
    replace ("ID_FILENAME=" +++ a +++ "=" +++ b)
      with (("ID_FILENAME=" +++ a) +++ String "=" b)
      by (now rewrite append_assoc).
    rewrite rstrip_keeps by reflexivity.
    change (("ID_FILENAME=" +++ a) +++ String "=" (PyStr.rstrip b))
      with ("ID_FILENAME" +++ String "=" (a +++ String "=" (PyStr.rstrip b))).
    rewrite split_at_equals by reflexivity.
    destruct (split_once_two_parts a (PyStr.rstrip b)) as (x & y & ->). eauto. }
  destruct Hparts as (x & y & Hparts).
  unfold metadata_line_handler, lift, infomap.
  decide_startswith; cbn [negb metadata_rows metadata_row];
    decide_startswith; cbv iota.
  now rewrite Hparts.
Qed.


(** ** The command lines *)

Lemma metadata_handler_keeps_world (line : string) (metadata : gmap string mval)
  (w : World) :
  snd (metadata_line_handler line metadata w) = w.
Proof.
  unfold metadata_line_handler.
  now destruct (negb (startswith "ID_" line)).
Qed.

Lemma metadata_loop_keeps_world (miss_count : Z) (reads : list string)
  (eof_count : Z) (metadata : gmap string mval) (w : World) :
  snd (popen_loop (Some metadata_line_handler) miss_count reads eof_count metadata w)
  = w.
Proof.
  revert eof_count metadata.
  induction reads as [|line rest IH]; intros eof_count metadata; [reflexivity|].
  cbn [popen_loop]. destruct (len line <? 1).
  - destruct (eof_count >? miss_count); [reflexivity | apply IH].
  - unfold bind.
    pose proof (metadata_handler_keeps_world line metadata w) as Hw.
    destruct (metadata_line_handler line metadata w) as [[metadata'|e] w'];
      cbn [snd] in Hw; subst w'; [apply IH | reflexivity].
Qed.

(** X7: the probe command is read by the shell as [mplayer], seven fixed
    words and the file name as one word, whatever the name holds; and
    with mplayer at hand the probe gives the shell this one command
    line and no other, whether it returns or raises: the log of the
    shell has one more entry, the files are as the command leaves them,
    and nothing else that the world records has changed.  The check
    that comes first runs [mplayer --help] without the shell; that run
    is not in the log. *)
Theorem get_video_metadata_one_command (filename : string) (w : World) :
  "mplayer" ∈ utilities w ->
  shell_split (get_video_metadata_command filename)
  = Some ["mplayer"; "-vo"; "null"; "-ao"; "null"; "-frames"; "0"; "-identify";
          filename]
  /\ snd (get_video_metadata filename w)
     = after_command (get_video_metadata_command filename) w.
Proof.
  intros Hu. split.
  - unfold shell_split, get_video_metadata_command. simpl.
    now rewrite split_escaped_body.
  - unfold get_video_metadata. rewrite require_one_utility.
    destruct (decide ("mplayer" ∈ utilities w)) as [_|]; [|contradiction].
    fold (get_video_metadata_command filename).
    unfold bind. rewrite popen_as_loop.
    pose proof (metadata_loop_keeps_world default_miss_count
                  (fst (run_command w (get_video_metadata_command filename) (files w)))
                  0 ∅ (after_command (get_video_metadata_command filename) w)) as Hw.
    destruct (popen_loop _ _ _ _ _ _) as [[metadata|e] w']; cbn [snd] in *;
      subst w'; [|reflexivity].
    now destruct (Z.of_nat (size metadata) <? 2).
Qed.

Lemma inject_metadata_run (input_filename output_filename : string) (w : World) :
  inject_metadata input_filename output_filename w =
    if decide ("yamdi" ∈ utilities w)
    then (Return tt,
          after_command (inject_metadata_command input_filename output_filename) w)
    else (Raise (UtilityNotFound "Utility yamdi not found"), w).
Proof.
  unfold inject_metadata. rewrite require_one_utility.
  destruct (decide ("yamdi" ∈ utilities w)); [|reflexivity].
  apply popen_no_handler.
Qed.

(** X8: the injector command is read by the shell as [yamdi -i] input
    [-o] output, each file name one word whatever it holds; when yamdi
    is at hand the call gives the shell this one command line and no
    other and returns, and otherwise it raises [UtilityNotFound] and
    gives the shell nothing.  The check that comes first runs
    [yamdi --help] without the shell; that run is not in the log. *)
Theorem inject_metadata_one_command (input_filename output_filename : string)
  (w : World) :
  shell_split (inject_metadata_command input_filename output_filename)
  = Some ["yamdi"; "-i"; input_filename; "-o"; output_filename]
  /\ inject_metadata input_filename output_filename w =
       if decide ("yamdi" ∈ utilities w)
       then (Return tt,
             after_command (inject_metadata_command input_filename output_filename) w)
       else (Raise (UtilityNotFound "Utility yamdi not found"), w).
Proof.
  split.
  - unfold shell_split, inject_metadata_command. simpl.
    rewrite !append_assoc. simpl.
    rewrite split_escaped_body. simpl. now rewrite split_escaped_body.
  - apply inject_metadata_run.
Qed.


(** ** The constructor and the mencoder command *)

Lemma init_sides (attrs : Converter) (kw_width kw_height : option Z) :
  In attrs shipped_classes ->
  width (init attrs kw_width kw_height) = Some (or_default kw_width 640)
  /\ height (init attrs kw_width kw_height) = Some (or_default kw_height 480).
Proof.
  intros Hin. cbn [In shipped_classes] in Hin.
  repeat (destruct Hin as [Hin|Hin]; [subst attrs|]); [..|contradiction];
    (split; [destruct kw_width as [n|] | destruct kw_height as [n|]];
     cbn; try reflexivity; now destruct (n =? 0)).
Qed.

Lemma or_default_truthy (v : option Z) (d : Z) :
  d <> 0 -> truthy_int (Some (or_default v d)) = true.
Proof.
  destruct v as [n|]; intros Hd; cbn; [destruct (Z.eqb_spec n 0)|];
    apply negb_true_iff, Z.eqb_neq; assumption.
Qed.

(** X9: a converter made by the constructor of any class of the module
    always has both sides of the picture set, a missing or zero keyword
    falling back to 640 and 480, so its filter is always of the shape
    [scale=W:H]. *)
Theorem init_scale_filter (attrs : Converter) (kw_width kw_height : option Z) :
  In attrs shipped_classes ->
  video_filters (init attrs kw_width kw_height)
  = "-vf scale=" +++ str_of_int (or_default kw_width 640) +++ ":"
    +++ str_of_int (or_default kw_height 480).
Proof.
  intros Hin.
  destruct (init_sides attrs kw_width kw_height Hin) as [Hw Hh].
  unfold video_filters. rewrite Hw, Hh, !or_default_truthy by discriminate.
  reflexivity.
Qed.

Lemma plain_word_app (a b : string) :
  plain_word (a +++ b) = plain_word a && plain_word b.
Proof. induction a as [|c a IH]; simpl; [reflexivity|]. now rewrite IH, andb_assoc. Qed.

Lemma scale_word_plain (w h : Z) :
  plain_word ("scale=" +++ str_of_int w +++ ":" +++ str_of_int h) = true.
Proof.
  rewrite !plain_word_app.
  destruct (str_of_int_plain w) as [-> _], (str_of_int_plain h) as [-> _].
  reflexivity.
Qed.

(** The splitter on a command line in two parts. *)
Lemma lex_prefix_app (a b : string) (st : lex_state) (cur : string) :
  shell_split_from st cur (a +++ b) =
    let '(words, st', cur') := lex_prefix st cur a in
    option_map (app words) (shell_split_from st' cur' b).
Proof.
  revert st cur. induction a as [|c a IH]; intros st cur.
  - cbn. now destruct (shell_split_from st cur b).
  - cbn [String.append shell_split_from lex_prefix].
    destruct st;
      repeat match goal with
             | |- context [if ?x then _ else _] => destruct x
             end;
      try apply IH.
    rewrite IH. destruct (lex_prefix Between "" a) as [[words st'] cur'].
    now destruct (shell_split_from st' cur' b).
Qed.

Lemma split_last_word (w : string) :
  plain_word w = true -> w <> "" ->
  shell_split_from Between "" w = Some [w].
Proof.
  intros Hp Hne. rewrite <- (append_nil_r w) at 1.
  now rewrite split_plain_word_between.
Qed.


(** Runs the splitter over the literal first part of a command line. *)
Ltac lex_step :=
  rewrite lex_prefix_app;
  match goal with
  | |- context [lex_prefix ?st ?cur ?a] =>
      let v := eval vm_compute in (lex_prefix st cur a) in
      change (lex_prefix st cur a) with v
  end; cbv beta iota.

(** The text of the command of an [H263Converter]. *)
Lemma h263_command_text (kw_width kw_height : option Z)
  (input_file output_file : string) :
  mencoder_command (init H263Converter_attrs kw_width kw_height)
    input_file output_file
  = "mencoder " +++ escape_shell_arg input_file +++ " -o " +++ output_file
    +++ " -of lavf -ovc lavc -lavcopts vcodec=flv:vbitrate=700:trell:v4mv:mv0:mbd=2:cbp:aic:cmp=3:subcmp=3 -oac mp3lame -lameopts abr:br=64 -srate 22050 -vf "
    +++ ("scale=" +++ str_of_int (or_default kw_width 640) +++ ":"
         +++ str_of_int (or_default kw_height 480)).
Proof.
  assert (Hvf : video_filters (init H263Converter_attrs kw_width kw_height)
                = "-vf scale=" +++ str_of_int (or_default kw_width 640) +++ ":"
                  +++ str_of_int (or_default kw_height 480)).
  { destruct (init_sides H263Converter_attrs kw_width kw_height) as [Hw Hh];
      [cbn; auto|].
    unfold video_filters. rewrite Hw, Hh, !or_default_truthy by discriminate.
    reflexivity. }
  unfold mencoder_command. rewrite Hvf.
  set (scale := str_of_int (or_default kw_width 640) +++ ":"
                +++ str_of_int (or_default kw_height 480)).
  unfold input_filename, output_filename, container, vcodec,
    vcodec_opts, acodec, acodec_opts, sample_rate_arg.
  cbn [init H263Converter_attrs output_format video_codec video_opts
       video_opts_prefix audio_codec audio_opts audio_opts_prefix sample_rate
       truthy_str truthy_int nonempty format_str format_int join].
  set (e := escape_shell_arg input_file).
  cbn. rewrite !append_assoc. reflexivity.
Qed.

(** A character that [/bin/sh] takes literally is one that the splitter
    takes literally. *)
Lemma safe_char_plain (c : ascii) : safe_char c = true -> plain_char c = true.
Proof.
  destruct c as [[] [] [] [] [] [] [] []]; vm_compute; intros H;
    first [reflexivity | discriminate H].
Qed.

Lemma safe_word_plain (s : string) : safe_word s = true -> plain_word s = true.
Proof.
  induction s as [|c s IH]; [reflexivity|].
  cbn [safe_word plain_word]. intros H. apply andb_prop in H as [Hc Hs].
  now rewrite (safe_char_plain c Hc), IH.
Qed.

(** X10: for a converter made by the constructor of [H263Converter], an
    input file of any name and an output file whose name is not empty
    and made of letters, digits, dots, underscores, slashes and hyphens
    only, the shell reads the encode command as these eighteen words:
    the input file is one word whatever it holds. *)
Theorem h263_command_words (kw_width kw_height : option Z)
  (input_file output_file : string) :
  safe_word output_file = true -> output_file <> "" ->
  shell_split (mencoder_command (init H263Converter_attrs kw_width kw_height)
                 input_file output_file)
  = Some ["mencoder"; input_file; "-o"; output_file; "-of"; "lavf";
          "-ovc"; "lavc"; "-lavcopts";
          "vcodec=flv:vbitrate=700:trell:v4mv:mv0:mbd=2:cbp:aic:cmp=3:subcmp=3";
          "-oac"; "mp3lame"; "-lameopts"; "abr:br=64"; "-srate"; "22050";
          "-vf";
          "scale=" +++ str_of_int (or_default kw_width 640) +++ ":"
          +++ str_of_int (or_default kw_height 480)].
Proof.
  intros Hsafe Hne. apply safe_word_plain in Hsafe as Hplain.
  rewrite h263_command_text.
  pose proof (scale_word_plain (or_default kw_width 640) (or_default kw_height 480))
    as Hscale.
  set (scale := "scale=" +++ str_of_int (or_default kw_width 640) +++ ":"
                +++ str_of_int (or_default kw_height 480)) in *.
  assert (Hscale_ne : scale <> "") by discriminate.
  clearbody scale.
  unfold shell_split.
  lex_step. rewrite split_escaped_between.
  lex_step. rewrite split_plain_word_between by assumption.
  lex_step. rewrite split_last_word by assumption.
  reflexivity.
Qed.


(** X21: the output file is written into the command as it is: for a
    converter made by the constructor of [H263Converter] and an output
    name made of two words with a blank between them, each of them not
    empty and made of letters, digits, dots, underscores, slashes and
    hyphens only, the shell reads the two as separate words, the second
    one after [-o] and its argument. *)
Theorem h263_output_not_escaped (kw_width kw_height : option Z)
  (input_file a b : string) :
  safe_word a = true -> a <> "" -> safe_word b = true -> b <> "" ->
  shell_split (mencoder_command (init H263Converter_attrs kw_width kw_height)
                 input_file (a +++ " " +++ b))
  = Some ["mencoder"; input_file; "-o"; a; b; "-of"; "lavf";
          "-ovc"; "lavc"; "-lavcopts";
          "vcodec=flv:vbitrate=700:trell:v4mv:mv0:mbd=2:cbp:aic:cmp=3:subcmp=3";
          "-oac"; "mp3lame"; "-lameopts"; "abr:br=64"; "-srate"; "22050";
          "-vf";
          "scale=" +++ str_of_int (or_default kw_width 640) +++ ":"
          +++ str_of_int (or_default kw_height 480)].
Proof.
  intros Ha Hane Hb Hbne.
  apply safe_word_plain in Ha, Hb.
  rewrite h263_command_text.
  pose proof (scale_word_plain (or_default kw_width 640) (or_default kw_height 480))
    as Hscale.
  set (scale := "scale=" +++ str_of_int (or_default kw_width 640) +++ ":"
                +++ str_of_int (or_default kw_height 480)) in *.
  assert (Hscale_ne : scale <> "") by discriminate.
  clearbody scale.
  unfold shell_split.
  lex_step. rewrite split_escaped_between.
  lex_step. rewrite !append_assoc.
  rewrite split_plain_word_between by assumption.
  lex_step. rewrite split_plain_word_between by assumption.
  lex_step. rewrite split_last_word by assumption.
  reflexivity.
Qed.

(** ** The plan of the snapshots, in general *)

(** X11: for a clip shorter than the number of steps the step is zero,
    and the snapshot stage raises [ValueError] before it starts any
    command: the world is as it was. *)
Theorem make_snapshot_short_clip (result : ConvertResult)
  (info : gmap string mval) (duration num : Z) (w : World) :
  own_movie_info result = Some info ->
  info !! "duration" = Some (MInt duration) ->
  0 <= duration < num ->
  snapshot_seconds duration num = Raise ValueError
  /\ BaseConverter_make_snapshot result num w = (Raise ValueError, w).
Proof.
  intros Hinfo Hdur Hshort.
  assert (Hplan : snapshot_seconds duration num = Raise ValueError).
  { unfold snapshot_seconds, xrange.
    replace (num =? 0) with false by lia.
    now rewrite Z.div_small by lia. }
  split; [assumption|].
  unfold BaseConverter_make_snapshot, bind, lift, movie_duration, movie_info,
    bind_outcome.
  now rewrite Hinfo, Hdur, Hplan.
Qed.

Lemma xrange_members (start stop step : Z) :
  0 < step ->
  exists l,
    xrange start stop step = Return l
    /\ forall p, In p l <-> start <= p < stop /\ (p - start) mod step = 0.
Proof.
  intros Hstep. unfold xrange.
  replace (step =? 0) with false by lia.
  replace (0 <? step) with true by lia.
  eexists. split; [reflexivity|].
  set (q := (stop - start + step - 1) / step).
  assert (Hq1 : step * q <= stop - start + step - 1)
    by (apply Z.mul_div_le; lia).
  assert (Hq2 : stop - start + step - 1 < step * Z.succ q)
    by (apply Z.mul_succ_div_gt; lia).
  intros p. rewrite in_map_iff. split.
  - intros (i & <- & Hi). apply in_seq in Hi.
    replace (start + Z.of_nat i * step - start) with (Z.of_nat i * step) by lia.
    rewrite Z.mod_mul by lia. split; [nia | reflexivity].
  - intros [Hp Hmod].
    apply Z.mod_divide in Hmod; [|lia]. destruct Hmod as [k Hk].
    assert (0 <= k) by nia.
    exists (Z.to_nat k). split; [lia|].
    apply in_seq. split; [lia|]. simpl. nia.
Qed.

(** X12: for a clip of at least as many seconds as steps, and of less
    than 2^53 seconds, the plan is the regular positions, then the
    duration, then its half; a second is a regular position exactly when
    it lies from 1 up to, but not at, [duration - 1] and is a whole
    number of steps after 1. *)
Theorem snapshot_seconds_members (duration num : Z) :
  0 < num -> num <= duration -> duration < 2 ^ 53 ->
  exists regular,
    snapshot_seconds duration num = Return (regular ++ [duration; duration / 2])
    /\ forall p,
         In p regular <->
         1 <= p < duration - 1 /\ (p - 1) mod (duration / num) = 0.
Proof.
  intros Hnum Hd _.
  assert (Hstep : 0 < duration / num) by (apply Z.div_str_pos; lia).
  destruct (xrange_members 1 (duration - 1) (duration / num) Hstep)
    as (regular & Hx & Hmem).
  exists regular. split; [|assumption].
  unfold snapshot_seconds. replace (num =? 0) with false by lia.
  now rewrite Hx.
Qed.

(** X13: for a clip of at least [num] and less than twice [num] seconds,
    and of less than 2^53 seconds, the step is one second: the plan has
    every second from 1 to [duration - 2], then the duration and its
    half, however small [num] is next to that. *)
Theorem snapshot_seconds_every_second (duration num : Z) :
  0 < num -> num <= duration < 2 * num -> duration < 2 ^ 53 ->
  snapshot_seconds duration num
  = Return (map Z.of_nat (seq 1 (Z.to_nat (duration - 2)))
            ++ [duration; duration / 2]).
Proof.
  intros Hnum Hd _.
  assert (Hstep : duration / num = 1)
    by (symmetry; apply (Z.div_unique duration num 1 (duration - num)); lia).
  unfold snapshot_seconds, xrange. replace (num =? 0) with false by lia.
  rewrite Hstep. cbn [Z.eqb Z.ltb Z.compare bind_outcome].
  rewrite Z.div_1_r. f_equal. f_equal.
  replace (duration - 1 - 1 + 1 - 1) with (duration - 2) by lia.
  rewrite <- seq_shift, map_map. apply map_ext. intros i. lia.
Qed.


(** ** One snapshot and the dictionary *)

(** X14: with ffmpeg at hand and a file left at the snapshot path, the
    attempt at one position returns; the position enters the snapshot
    dictionary exactly when the file is not empty, and an empty file is
    removed. *)
Theorem snapshot_at_records (result : ConvertResult) (position : Z) (w : World)
  (d : gmap Z string) (size : N) :
  "ffmpeg" ∈ utilities w ->
  heap w !! snapshots result = Some (SnapshotDict d) ->
  files (after_command (snapshot_command_at result position) w)
    !! snapshot_filename result position = Some size ->
  exists w',
    snapshot_at result position w = (Return tt, w')
    /\ heap w' !! snapshots result
       = Some (SnapshotDict
                 (if 0 <? Z.of_N size
                  then <[position := snapshot_filename result position]> d
                  else d))
    /\ files w' !! snapshot_filename result position
       = (if 0 <? Z.of_N size then Some size else None).
Proof.
  intros Hu Hd Hsize. unfold snapshot_at, bind.
  rewrite (make_snapshot_with_file _ _ _ _ size) by assumption.
  fold (snapshot_command_at result position).
  destruct (0 <? Z.of_N size).
  - unfold snapshots_setitem. cbn [heap after_command set_launched set_files].
    rewrite Hd. eexists. split; [reflexivity|].
    cbn [heap set_heap files]. rewrite lookup_insert_eq. split; [reflexivity|].
    exact Hsize.
  - eexists. split; [reflexivity|].
    cbn [heap files set_files after_command set_launched].
    split; [assumption | apply lookup_delete_eq].
Qed.

(** ** The injection stage *)

Lemma length_append (s t : string) :
  String.length (s +++ t) = (String.length s + String.length t)%nat.
Proof. induction s as [|c s IH]; simpl; [reflexivity | now rewrite IH]. Qed.

Lemma append_longer (s t : string) : t <> "" -> s +++ t <> s.
Proof.
  intros Ht H. apply (f_equal String.length) in H.
  rewrite length_append in H. destruct t; [congruence|]. simpl in H. lia.
Qed.

(** X15: the injection stage, once yamdi has run: without the converted
    file it raises [OSError]; with the converted file but no side file it
    raises [OSError] after having removed the converted file, which is
    lost; with both, the side file takes the place of the converted file
    and is gone itself. *)
Theorem BaseConverter_inject_metadata_outcome (output_file : string) (w : World) :
  let side := output_file +++ ".yamdi" in
  let w1 := after_command (inject_metadata_command output_file side) w in
  BaseConverter_inject_metadata output_file w =
    if decide ("yamdi" ∈ utilities w) then
      match files w1 !! output_file with
      | None => (Raise OSError, w1)
      | Some _ =>
          match files w1 !! side with
          | None => (Raise OSError, set_files (delete output_file (files w1)) w1)
          | Some n =>
              (Return tt,
               set_files (<[output_file := n]>
                            (delete side (delete output_file (files w1)))) w1)
          end
      end
    else (Raise (UtilityNotFound "Utility yamdi not found"), w).
Proof.
  cbv zeta. unfold BaseConverter_inject_metadata, bind.
  rewrite inject_metadata_run.
  destruct (decide ("yamdi" ∈ utilities w)); [|reflexivity].
  set (w1 := after_command _ w).
  unfold os_remove, os_rename.
  destruct (files w1 !! output_file) as [n0|]; [|reflexivity].
  cbn [files set_files].
  rewrite lookup_delete_ne by (apply not_eq_sym, append_longer; discriminate).
  now destruct (files w1 !! (output_file +++ ".yamdi")).
Qed.


(** ** The stages of a conversion *)

Lemma encode_without_command (self : Converter) (input_file output_file : string)
  (w : World) :
  cls self <> Mencoder ->
  encode self input_file output_file w = (Raise AttributeError, w).
Proof.
  intros Hcls. unfold encode, has_parse_converter_output, parse_converter_output,
    ffmpeg_parse_converter_output, get_encode_command, bind.
  destruct (cls self); [reflexivity | contradiction | reflexivity].
Qed.

(** X16: a converter of a class without [get_encode_command], that is
    [BaseConverter] itself or [FFMpegConverter], cannot encode: [encode]
    raises [AttributeError] before it starts any command, and [convert]
    never returns a result. *)
Theorem convert_needs_mencoder (self : Converter) (input_file output_file : string)
  (w : World) :
  cls self <> Mencoder ->
  encode self input_file output_file w = (Raise AttributeError, w)
  /\ forall r w', convert self input_file output_file w <> (Return r, w').
Proof.
  intros Hcls. split; [now apply encode_without_command|].
  intros r w' H. unfold convert in H.
  apply bind_return in H as (info & w1 & _ & H).
  apply bind_return in H as (ok & w2 & Henc & _).
  rewrite encode_without_command in Henc by assumption. discriminate.
Qed.

(** X17: without mplayer, [convert] raises [UtilityNotFound] for it at
    once, whatever the converter: no command is started and the world is
    as it was. *)
Theorem convert_without_mplayer (self : Converter) (input_file output_file : string)
  (w : World) :
  "mplayer" ∉ utilities w ->
  convert self input_file output_file w
  = (Raise (UtilityNotFound "Utility mplayer not found"), w).
Proof.
  intros Hu. unfold convert, bind, get_movie_info, get_video_metadata.
  rewrite require_one_utility.
  destruct (decide ("mplayer" ∈ utilities w)); [contradiction | reflexivity].
Qed.

(** *** What the tracker of mencoder changes *)

Lemma same_system_refl (w : World) : same_system w w.
Proof. repeat split. Qed.

Lemma same_system_trans (w1 w2 w3 : World) :
  same_system w1 w2 -> same_system w2 w3 -> same_system w1 w3.
Proof.
  unfold same_system. intros (?&?&?&?&?) (?&?&?&?&?).
  repeat split; congruence.
Qed.

Lemma process_handler_effect (old new : Z) (w : World) :
  fst (process_handler old new w) = Return tt
  /\ same_system w (snd (process_handler old new w))
  /\ progress (snd (process_handler old new w)) = progress w ++ [(old, new)].
Proof. repeat split. Qed.

(** X18: one line given to the tracker of mencoder reports at most one
    progress event and changes nothing else but what is printed; it
    raises [WrongCommandLine] exactly when the line holds the error
    signature, and then leaves the world as it was. *)
Theorem mencoder_line_handler_effect (command line : string) (percent : pval)
  (w : World) :
  let run := mencoder_line_handler command line percent w in
  same_system w (snd run)
  /\ (exists events,
        progress (snd run) = progress w ++ events /\ (length events <= 1)%nat)
  /\ (if contains error_signature line
      then run = (Raise (WrongCommandLine
                           ("Parse error in command:" +++ String newline command
                            +++ String newline "")), w)
      else forall msg, fst run <> Raise (WrongCommandLine msg)).
Proof.
  cbv zeta. unfold mencoder_line_handler. fold error_signature.
  assert (Hnone : forall o : outcome pval,
            same_system w (snd (o, w))
            /\ exists events,
                 progress (snd (o, w)) = progress w ++ events
                 /\ (length events <= 1)%nat).
  { intros o. split; [apply same_system_refl|].
    exists []. split; [now rewrite app_nil_r | simpl; lia]. }
  destruct (contains error_signature line).
  { destruct (Hnone (Raise (WrongCommandLine
       ("Parse error in command:" +++ String newline command
        +++ String newline "")))) as [H1 H2]. auto. }
  destruct (Re.match_ re_pos line) as [m|].
  2:{ destruct (Hnone (Return percent)) as [H1 H2].
      split; [exact H1 | split; [exact H2 | discriminate]]. }
  unfold bind, lift.
  destruct (Re.group m 1) as [curr|e] eqn:Eg.
  2:{ destruct (Hnone (Raise e)) as [H1 H2].
      split; [exact H1 | split; [exact H2 |]].
      intros msg Hm. cbn in Hm. injection Hm as ->.
      unfold Re.group in Eg. destruct (nth_error m (1 - 1)); discriminate. }
  destruct (pval_ne percent (PStr curr)).
  2:{ destruct (Hnone (Return percent)) as [H1 H2].
      split; [exact H1 | split; [exact H2 | discriminate]]. }
  destruct (int_of_pval percent) as [old|e] eqn:Eold.
  2:{ destruct (Hnone (Raise e)) as [H1 H2].
      split; [exact H1 | split; [exact H2 |]].
      intros msg Hm. cbn in Hm. injection Hm as ->.
      destruct percent as [n|t]; [discriminate|].
      cbn in Eold. unfold PyStr.int_of_str in Eold.
      destruct (match PyStr.strip t with
                | String "-" t0 => option_map Z.opp (PyStr.unsigned_value t0)
                | String "+" t0 => PyStr.unsigned_value t0
                | t0 => PyStr.unsigned_value t0
                end); discriminate. }
  destruct (PyStr.int_of_str curr) as [new|e] eqn:Enew.
  2:{ destruct (Hnone (Raise e)) as [H1 H2].
      split; [exact H1 | split; [exact H2 |]].
      intros msg Hm. cbn in Hm. injection Hm as ->.
      unfold PyStr.int_of_str in Enew.
      destruct (match PyStr.strip curr with
                | String "-" t0 => option_map Z.opp (PyStr.unsigned_value t0)
                | String "+" t0 => PyStr.unsigned_value t0
                | t0 => PyStr.unsigned_value t0
                end); discriminate. }
  destruct (process_handler_effect old new w) as (Hr & Hs & Hp).
  destruct (process_handler old new w) as [o w1]. cbn [fst snd] in *. subst o.
  cbn [snd fst ret]. split; [exact Hs | split].
  - exists [(old, new)]. split; [assumption | simpl; lia].
  - discriminate.
Qed.


(** *** The encoder is started twice *)

Lemma mencoder_handler_same_system (command line : string) (percent : pval)
  (w : World) :
  same_system w (snd (mencoder_line_handler command line percent w)).
Proof.
  unfold mencoder_line_handler.
  destruct (contains _ line); [apply same_system_refl|].
  destruct (Re.match_ re_pos line) as [m|]; [|apply same_system_refl].
  unfold bind, lift.
  destruct (Re.group m 1) as [curr|e]; [|apply same_system_refl].
  destruct (pval_ne percent (PStr curr)); [|apply same_system_refl].
  destruct (int_of_pval percent) as [old|e]; [|apply same_system_refl].
  destruct (PyStr.int_of_str curr) as [new|e]; [|apply same_system_refl].
  repeat split.
Qed.

Lemma popen_loop_same_system {St} (handler : string -> St -> M St)
  (miss_count : Z) (reads : list string) (eof_count : Z) (st : St) (w : World) :
  (forall line st0 w0, same_system w0 (snd (handler line st0 w0))) ->
  same_system w (snd (popen_loop (Some handler) miss_count reads eof_count st w)).
Proof.
  intros Hh. revert eof_count st w.
  induction reads as [|line rest IH]; intros eof_count st w;
    [apply same_system_refl|].
  cbn [popen_loop]. destruct (len line <? 1).
  - destruct (eof_count >? miss_count); [apply same_system_refl | apply IH].
  - unfold bind. pose proof (Hh line st w) as Hs.
    destruct (handler line st w) as [[st'|e] w1]; cbn [snd] in Hs; [|exact Hs].
    eapply same_system_trans; [exact Hs | apply IH].
Qed.


(** X19: whenever [encode] of a converter of the mencoder family returns,
    it has started the encode command twice, and nothing else: once read
    by the progress tracker, and once more after it. *)
Theorem mencoder_encode_runs_twice (self : Converter) (input_file output_file : string)
  (w w' : World) (b : bool) :
  cls self = Mencoder ->
  encode self input_file output_file w = (Return b, w') ->
  launched w' = launched w ++ [mencoder_command self input_file output_file;
                               mencoder_command self input_file output_file].
Proof.
  intros Hcls H. unfold encode, has_parse_converter_output,
    parse_converter_output in H. rewrite Hcls in H.
  apply bind_return in H as ([] & w1 & Htrack & H).
  apply bind_return in Htrack as (ok & w1' & Htrack & Hret).
  apply ret_return in Hret as [_ <-].
  unfold mencoder_parse_converter_output in Htrack.
  apply bind_return in Htrack as (command & w0 & Hcmd & Htrack).
  rewrite get_encode_command_mencoder in Hcmd by assumption.
  injection Hcmd as <- <-.
  apply bind_return in Htrack as (percent & w1'' & Hpopen & Hret).
  apply ret_return in Hret as [_ <-].
  rewrite popen_as_loop in Hpopen.
  match type of Hpopen with
  | popen_loop (Some ?h) ?m ?r ?e ?s ?w0 = _ =>
      pose proof (popen_loop_same_system h m r e s w0
                    (mencoder_handler_same_system _)) as Hs
  end.
  rewrite Hpopen in Hs. cbn [snd] in Hs.
  destruct Hs as (_ & _ & _ & _ & Hl1). cbn in Hl1.
  apply bind_return in H as (command & w2 & Hcmd & H).
  rewrite get_encode_command_mencoder in Hcmd by assumption.
  injection Hcmd as <- <-.
  apply bind_return in H as ([] & w3 & Hpopen2 & H).
  apply ret_return in H as [_ <-].
  rewrite popen_no_handler in Hpopen2. injection Hpopen2 as <-.
  cbn. rewrite Hl1, <- app_assoc. reflexivity.
Qed.


(** ** The probe with two fields *)

Lemma marker_line_not_blank (token rest : string) :
  (len (token +++ "=" +++ rest) <? 1) = false.
Proof.
  unfold len. rewrite length_append.
  change ("=" +++ rest) with (String "=" rest). cbn [String.length].
  apply Z.ltb_ge. lia.
Qed.

(** X20: when mplayer prints two lines of two different integer rows, the
    probe returns the dictionary of these two fields: two fields are
    enough. *)
Theorem get_video_metadata_two_fields (filename : string) (w : World)
  (token1 field1 token2 field2 : string) (n1 n2 : Z) :
  "mplayer" ∈ utilities w ->
  In (token1, field1) int_fields -> In (token2, field2) int_fields ->
  field1 <> field2 ->
  fst (run_command w (get_video_metadata_command filename) (files w))
  = [token1 +++ "=" +++ str_of_int n1 +++ String newline "";
     token2 +++ "=" +++ str_of_int n2 +++ String newline ""] ->
  get_video_metadata filename w
  = (Return (<[field2 := MInt n2]> (<[field1 := MInt n1]> ∅)),
     after_command (get_video_metadata_command filename) w).
Proof.
  intros Hu H1 H2 Hne Hreads.
  assert (Hline : forall token field n metadata w0,
            In (token, field) int_fields ->
            metadata_line_handler (token +++ "=" +++ str_of_int n +++ String newline "")
              metadata w0
            = (Return (<[field := MInt n]> metadata), w0)).
  { intros token field n metadata w0 Hin.
    destruct (metadata_rows_int_line token field n metadata Hin) as [Hid Hrows].
    unfold metadata_line_handler, lift. now rewrite Hid, Hrows. }
  unfold get_video_metadata. rewrite require_one_utility.
  destruct (decide ("mplayer" ∈ utilities w)) as [_|]; [|contradiction].
  fold (get_video_metadata_command filename).
  unfold bind at 1. rewrite popen_as_loop, Hreads.
  cbn [popen_loop]. rewrite !marker_line_not_blank.
  unfold bind at 1. rewrite (Hline token1 field1) by assumption.
  unfold bind at 1. rewrite (Hline token2 field2) by assumption.
  unfold ret at 1.
  rewrite map_size_insert_None
    by (rewrite lookup_insert_ne by assumption; apply lookup_empty).
  rewrite map_size_insert_None by apply lookup_empty.
  rewrite map_size_empty. reflexivity.
Qed.

End MoreProofs.

(** * Further properties on concrete inputs *)

(** Witness of X2: the probe of the demonstration world, its lines kept. *)
Lemma popen_handles_every_line_demo :
  popen (get_video_metadata_command "in.avi") (Some keep_lines)
        default_miss_count [] demo_world
  = handle_all keep_lines
      (List.filter (fun line => negb (blank_read line))
         (fst (run_command demo_world (get_video_metadata_command "in.avi")
                 (files demo_world))))
      [] (after_command (get_video_metadata_command "in.avi") demo_world).
Proof.
  apply popen_handles_every_line.
  apply Z.leb_le. vm_compute. reflexivity.
Defined.

(** Witness of X3: a probe that prints nothing. *)
Lemma get_video_metadata_no_fields_demo :
  get_video_metadata "in.avi" silent_world
  = (Raise (WrongVideoFormat "Can't parse metadata, maybe wrong format"),
     after_command (get_video_metadata_command "in.avi") silent_world).
Proof.
  apply get_video_metadata_no_fields.
  - cbn. set_solver.
  - cbn. constructor.
Defined.

(** Witness of X4: a width of 640. *)
Lemma metadata_int_field_demo :
  metadata_line_handler
    ("ID_VIDEO_WIDTH" +++ "=" +++ str_of_int 640 +++ String newline "")
    ∅ demo_world
  = (Return (<["width" := MInt 640]> ∅), demo_world).
Proof.
  apply metadata_int_field. cbn. do 4 right. left. reflexivity.
Defined.

(** Witness of X7: the probe of the demonstration world. *)
Lemma get_video_metadata_one_command_demo :
  shell_split (get_video_metadata_command "in.avi")
  = Some ["mplayer"; "-vo"; "null"; "-ao"; "null"; "-frames"; "0"; "-identify";
          "in.avi"]
  /\ snd (get_video_metadata "in.avi" demo_world)
     = after_command (get_video_metadata_command "in.avi") demo_world.
Proof.
  apply get_video_metadata_one_command. cbn. set_solver.
Defined.

(** Witness of X9: the converter of the main program with no height. *)
Lemma init_scale_filter_demo :
  video_filters (init H264Converter_attrs (Some 320) None)
  = "-vf scale=" +++ str_of_int (or_default (Some 320) 640) +++ ":"
    +++ str_of_int (or_default None 480).
Proof.
  apply init_scale_filter. cbn. do 4 right. left. reflexivity.
Defined.

(** Witness of X10: an input file with a blank and a quote in its name. *)
Lemma h263_command_words_demo :
  shell_split (mencoder_command (init H263Converter_attrs None None)
                 "my film's.avi" "out.flv")
  = Some ["mencoder"; "my film's.avi"; "-o"; "out.flv"; "-of"; "lavf";
          "-ovc"; "lavc"; "-lavcopts";
          "vcodec=flv:vbitrate=700:trell:v4mv:mv0:mbd=2:cbp:aic:cmp=3:subcmp=3";
          "-oac"; "mp3lame"; "-lameopts"; "abr:br=64"; "-srate"; "22050";
          "-vf";
          "scale=" +++ str_of_int (or_default None 640) +++ ":"
          +++ str_of_int (or_default None 480)].
Proof.
  apply h263_command_words; [reflexivity | discriminate].
Defined.

(** Witness of X11: a clip of 5 seconds and 10 steps. *)
Lemma make_snapshot_short_clip_demo :
  snapshot_seconds 5 10 = Raise ValueError
  /\ BaseConverter_make_snapshot short_result 10 demo_world
     = (Raise ValueError, demo_world).
Proof.
  apply (make_snapshot_short_clip short_result {["duration" := MInt 5]});
    [reflexivity | reflexivity | lia].
Defined.

(** Witness of X12: 100 seconds and 10 steps. *)
Lemma snapshot_seconds_members_demo :
  exists regular,
    snapshot_seconds 100 10 = Return (regular ++ [100; 100 / 2])
    /\ forall p, In p regular <-> 1 <= p < 100 - 1 /\ (p - 1) mod (100 / 10) = 0.
Proof. apply snapshot_seconds_members; [lia | lia | reflexivity]. Defined.

(** Witness of X13: 19 seconds and 10 steps give 19 positions. *)
Lemma snapshot_seconds_every_second_demo :
  snapshot_seconds 19 10
  = Return (map Z.of_nat (seq 1 (Z.to_nat (19 - 2))) ++ [19; 19 / 2]).
Proof. apply snapshot_seconds_every_second; [lia | lia | reflexivity]. Defined.

(** Witness of X14: the snapshot at second 50 of the demonstration. *)
Lemma snapshot_at_records_demo :
  exists w',
    snapshot_at demo_result 50 demo_world = (Return tt, w')
    /\ heap w' !! snapshots demo_result
       = Some (SnapshotDict
                 (if 0 <? Z.of_N 512
                  then <[50 := snapshot_filename demo_result 50]> ∅
                  else ∅))
    /\ files w' !! snapshot_filename demo_result 50
       = (if 0 <? Z.of_N 512 then Some 512%N else None).
Proof.
  apply snapshot_at_records.
  - cbn. set_solver.
  - reflexivity.
  - vm_compute. reflexivity.
Defined.

(** Witness of X16: a converter of the ffmpeg class. *)
Lemma convert_needs_mencoder_demo :
  encode (init (BaseConverter_attrs FFMpeg) None None) "in.avi" "out.flv" demo_world
  = (Raise AttributeError, demo_world)
  /\ forall r w',
       convert (init (BaseConverter_attrs FFMpeg) None None) "in.avi" "out.flv"
         demo_world <> (Return r, w').
Proof. apply convert_needs_mencoder. discriminate. Defined.

(** Witness of X17: a system without mplayer. *)
Lemma convert_without_mplayer_demo :
  convert demo_converter "in.avi" "out.flv" bare_world
  = (Raise (UtilityNotFound "Utility mplayer not found"), bare_world).
Proof. apply convert_without_mplayer. cbn. set_solver. Defined.

(** Witness of X19: the encoder of the demonstration world. *)
Lemma mencoder_encode_runs_twice_demo :
  launched (snd (encode demo_converter "in.avi" "out.flv" demo_world))
  = launched demo_world
    ++ [mencoder_command demo_converter "in.avi" "out.flv";
        mencoder_command demo_converter "in.avi" "out.flv"].
Proof.
  assert (Hreturns : match fst (encode demo_converter "in.avi" "out.flv" demo_world) with
                     | Return _ => True
                     | Raise _ => False
                     end) by (vm_compute; exact I).
  revert Hreturns.
  destruct (encode demo_converter "in.avi" "out.flv" demo_world)
    as [[b|e] w'] eqn:H; cbn [fst snd]; intros Hreturns; [|contradiction].
  apply (mencoder_encode_runs_twice demo_converter "in.avi" "out.flv" demo_world w' b);
    [reflexivity | exact H].
Defined.

(** Witness of X20: a probe that prints a width and a height. *)
Lemma get_video_metadata_two_fields_demo :
  get_video_metadata "in.avi" two_field_world
  = (Return (<["height" := MInt 240]> (<["width" := MInt 320]> ∅)),
     after_command (get_video_metadata_command "in.avi") two_field_world).
Proof.
  apply (get_video_metadata_two_fields "in.avi" two_field_world
           "ID_VIDEO_WIDTH" "width" "ID_VIDEO_HEIGHT" "height" 320 240).
  - cbn. set_solver.
  - cbn. do 4 right. left. reflexivity.
  - cbn. do 5 right. left. reflexivity.
  - discriminate.
  - reflexivity.
Defined.

(** Witness of X21: an output file with a blank in its name. *)
Lemma h263_output_not_escaped_demo :
  shell_split (mencoder_command (init H263Converter_attrs None None)
                 "in.avi" ("my" +++ " " +++ "film.flv"))
  = Some ["mencoder"; "in.avi"; "-o"; "my"; "film.flv"; "-of"; "lavf";
          "-ovc"; "lavc"; "-lavcopts";
          "vcodec=flv:vbitrate=700:trell:v4mv:mv0:mbd=2:cbp:aic:cmp=3:subcmp=3";
          "-oac"; "mp3lame"; "-lameopts"; "abr:br=64"; "-srate"; "22050";
          "-vf";
          "scale=" +++ str_of_int (or_default None 640) +++ ":"
          +++ str_of_int (or_default None 480)].
Proof.
  apply h263_output_not_escaped; (reflexivity || discriminate).
Defined.
